(** * CPUMonitorPy: a shallow embedding of [main.py]

    The development follows the layout of the script: numeric helpers
    (Python floats and their [".1f"] rendering), bounded deques as
    [collections.deque(maxlen=...)], the threshold classifier [colorize],
    the [CPUMonitor] sampler with its metric source, and the CSV export of
    [save_data_log]. *)

From Stdlib Require Import String Ascii DecimalString.
From Stdlib Require Import ZArith QArith Qround Qabs Qpower Qreduction.
From Stdlib Require Import List Bool Lia Permutation.
Import ListNotations.

Local Open Scope Z_scope.

(** ** Python floats

    A finite binary64 value is the rational it denotes, so a float is
    carried as a [Q].  Arithmetic that Python rounds ([/], [-], the
    conversion at the end of [statistics.mean]) goes through [to_float],
    round-to-nearest-even at 53 bits of precision with the subnormal
    exponent floor of binary64.  Infinities and NaN are not readings the
    metric source produces and are not represented. *)
Module Float.

Definition prec : Z := 53.
Definition emin : Z := -1074.

Definition pow2 (e : Z) : Q := (2 ^ e)%Q.

(** Exponent of the unit in the last place for a value of magnitude [e]. *)
Definition fexp (e : Z) : Z := Z.max (e - prec) emin.

(** [mag x] is the integer [e] with [2^(e-1) <= |x| < 2^e], for [x <> 0]. *)
Definition mag (x : Q) : Z :=
  let e0 := Z.log2 (Z.abs (Qnum x)) - Z.log2 (Zpos (Qden x)) in
  if Qle_bool (pow2 e0) (Qabs x) then e0 + 1 else e0.

(** Nearest integer, ties to even. *)
Definition round_half_even (x : Q) : Z :=
  let f := Qfloor x in
  match (x - inject_Z f ?= 1 # 2)%Q with
  | Lt => f
  | Gt => f + 1
  | Eq => if Z.even f then f else f + 1
  end.

Definition to_float (x : Q) : Q :=
  let x := Qred x in
  if Qeq_bool x 0 then 0%Q
  else
    let e := fexp (mag x) in
    Qred (inject_Z (round_half_even (x * pow2 (- e))) * pow2 e).

(** The values a float can hold: [m * 2^e] with a 53-bit significand and
    an exponent no lower than the subnormal one.  The exponent is not
    bounded above, overflow being outside the model. *)
Definition is_float (x : Q) : Prop :=
  exists m e : Z, emin <= e /\ Z.abs m < 2 ^ prec /\ (x == inject_Z m * pow2 e)%Q.

Definition fsub (a b : Q) : Q := to_float (a - b).
Definition fdiv (a b : Q) : Q := to_float (a / b).

(** Python [int(x)]: truncation toward zero. *)
Definition int_of_float (x : Q) : Z :=
  if Qle_bool 0 x then Qfloor x else Qceiling x.

End Float.

(** ** Rendering a float with [".1f"]

    Python prints the exact binary value correctly rounded to one decimal,
    ties to even, and keeps the sign of a negative value that rounds to
    zero. *)
Definition string_of_nonneg (z : Z) : string :=
  NilZero.string_of_uint (N.to_uint (Z.to_N z)).

Definition format_1f (x : Q) : string :=
  let n := Float.round_half_even (Qabs x * 10) in
  ((if Qle_bool 0 x then "" else "-")
     ++ string_of_nonneg (n / 10) ++ "." ++ string_of_nonneg (n mod 10))%string.

(** ** Strings: [str.lower] and the [in] operator, on ASCII labels *)
Definition lower_ascii (c : ascii) : ascii :=
  let n := nat_of_ascii c in
  if ((65 <=? n) && (n <=? 90))%nat then ascii_of_nat (n + 32) else c.

Fixpoint lower (s : string) : string :=
  match s with
  | EmptyString => EmptyString
  | String c s' => String (lower_ascii c) (lower s')
  end.

Fixpoint contains (sub s : string) : bool :=
  String.prefix sub s
  || match s with
     | EmptyString => false
     | String _ s' => contains sub s'
     end.

(** ** Exceptions *)
Inductive Result (A : Type) : Type :=
| Ok (a : A)
| Raise (e : string).
Arguments Ok {A} a.
Arguments Raise {A} e.

(** ** [collections.deque(maxlen=n)]

    [append] pushes on the right and, when the length then exceeds
    [maxlen], drops one element on the left. *)
Record deque (A : Type) : Type := mkDeque {
  maxlen : nat;
  items : list A
}.
Arguments mkDeque {A} maxlen items.
Arguments maxlen {A} d.
Arguments items {A} d.

Definition deque_new {A : Type} (n : nat) : deque A := mkDeque n [].

Definition deque_append {A : Type} (d : deque A) (x : A) : deque A :=
  let l := items d ++ [x] in
  mkDeque (maxlen d) (if (maxlen d <? length l)%nat then tl l else l).

Definition deque_len {A : Type} (d : deque A) : nat := length (items d).

(** [d[i]] for [i >= 0]; out of range is an [IndexError]. *)
Definition deque_getitem {A : Type} (d : deque A) (i : nat) : Result A :=
  match nth_error (items d) i with
  | Some x => Ok x
  | None => Raise "deque index out of range"
  end.

(** [d[-1]]. *)
Definition deque_last {A : Type} (d : deque A) : Result A :=
  match rev (items d) with
  | x :: _ => Ok x
  | [] => Raise "deque index out of range"
  end.

(** The last [n] elements of a list, in order. *)
Definition lastn {A : Type} (n : nat) (l : list A) : list A :=
  skipn (length l - n) l.

(** ** Config *)
Record Thresholds : Type := mkThresholds {
  cpu_warn : Q;
  cpu_crit : Q;
  temp_warn : Q;
  temp_crit : Q
}.

Record Settings : Type := mkSettings {
  sample_interval_sec : Q;
  temp_sample_interval_sec : Q;
  window_duration_sec : Q;
  progress_bar_width : Z;
  cpu_sensor_keys : list string
}.

Definition THRESHOLDS : Thresholds := mkThresholds 70 90 70 85.

Definition SETTINGS : Settings :=
  mkSettings (1 # 2) 2 10 40
    ["coretemp"; "cpu_thermal"; "k10temp"; "acpitz"]%string.

(** ** Utility functions *)
Inductive Color : Type := red | yellow | green.

Definition color_name (c : Color) : string :=
  match c with
  | red => "red"
  | yellow => "yellow"
  | green => "green"
  end.

(** The [color] chosen in the body of [colorize]. *)
Definition colorize_color (value warn crit : Q) : Color :=
  if Qle_bool crit value then red
  else if Qle_bool warn value then yellow
  else green.

Definition colorize (value warn crit : Q) (unit : string) : string :=
  let color := color_name (colorize_color value warn crit) in
  ("[" ++ color ++ "]" ++ format_1f value ++ unit ++ "[/" ++ color ++ "]")%string.

(** ** The metric source ([psutil], [datetime], [time])

    What the platform answers to each call a sampling tick can make.  A
    call either returns or raises; [datetime.now()] and [time.time()] do
    not raise. *)
Record scpufreq : Type := mkScpufreq {
  freq_current : Q;
  freq_min : Q;
  freq_max : Q
}.

Record shwtemp : Type := mkShwtemp {
  label : string;
  current : Q;
  high : option Q;
  critical : option Q
}.

(** The dict returned by [psutil.sensors_temperatures()], in key order. *)
Definition sensor_table : Type := list (string * list shwtemp).

Fixpoint table_get (key : string) (temps : sensor_table) : option (list shwtemp) :=
  match temps with
  | [] => None
  | (k, v) :: rest => if String.eqb k key then Some v else table_get key rest
  end.

Record Platform : Type := mkPlatform {
  now_strftime : string;
  cpu_percent : Result Q;
  cpu_freq : Result (option scpufreq);
  getloadavg : Result (Q * Q * Q);
  time_time : Q;
  sensors_temperatures : Result sensor_table
}.

(** Calls made and lines logged, in order. *)
Inductive Event : Type :=
| CallDatetimeNow
| CallCpuPercent
| CallCpuFreq
| CallGetloadavg
| CallTimeTime
| CallSensorsTemperatures
| ConsoleLog (msg : string).

(** ** CPU Monitor *)
Definition datetime : Type := Z.

Record CPUMonitor : Type := mkCPUMonitor {
  cpu_samples : deque Q;
  temp_samples : deque Q;
  freq_samples : deque Q;
  load_samples : deque (Q * Q * Q);
  _last_temp_time : Q;
  running : bool;
  _sensor_key : option string;
  start_time : option datetime;
  end_time : option datetime;
  timestamps : deque string
}.

Definition set_cpu_samples (d : deque Q) (m : CPUMonitor) : CPUMonitor :=
  mkCPUMonitor d (temp_samples m) (freq_samples m) (load_samples m)
    (_last_temp_time m) (running m) (_sensor_key m) (start_time m) (end_time m)
    (timestamps m).

Definition set_temp_samples (d : deque Q) (m : CPUMonitor) : CPUMonitor :=
  mkCPUMonitor (cpu_samples m) d (freq_samples m) (load_samples m)
    (_last_temp_time m) (running m) (_sensor_key m) (start_time m) (end_time m)
    (timestamps m).

Definition set_freq_samples (d : deque Q) (m : CPUMonitor) : CPUMonitor :=
  mkCPUMonitor (cpu_samples m) (temp_samples m) d (load_samples m)
    (_last_temp_time m) (running m) (_sensor_key m) (start_time m) (end_time m)
    (timestamps m).

Definition set_load_samples (d : deque (Q * Q * Q)) (m : CPUMonitor) : CPUMonitor :=
  mkCPUMonitor (cpu_samples m) (temp_samples m) (freq_samples m) d
    (_last_temp_time m) (running m) (_sensor_key m) (start_time m) (end_time m)
    (timestamps m).

Definition set_last_temp_time (t : Q) (m : CPUMonitor) : CPUMonitor :=
  mkCPUMonitor (cpu_samples m) (temp_samples m) (freq_samples m) (load_samples m)
    t (running m) (_sensor_key m) (start_time m) (end_time m) (timestamps m).

Definition set_running (b : bool) (m : CPUMonitor) : CPUMonitor :=
  mkCPUMonitor (cpu_samples m) (temp_samples m) (freq_samples m) (load_samples m)
    (_last_temp_time m) b (_sensor_key m) (start_time m) (end_time m)
    (timestamps m).

Definition set_sensor_key (k : option string) (m : CPUMonitor) : CPUMonitor :=
  mkCPUMonitor (cpu_samples m) (temp_samples m) (freq_samples m) (load_samples m)
    (_last_temp_time m) (running m) k (start_time m) (end_time m) (timestamps m).

Definition set_end_time (t : option datetime) (m : CPUMonitor) : CPUMonitor :=
  mkCPUMonitor (cpu_samples m) (temp_samples m) (freq_samples m) (load_samples m)
    (_last_temp_time m) (running m) (_sensor_key m) (start_time m) t
    (timestamps m).

Definition set_timestamps (d : deque string) (m : CPUMonitor) : CPUMonitor :=
  mkCPUMonitor (cpu_samples m) (temp_samples m) (freq_samples m) (load_samples m)
    (_last_temp_time m) (running m) (_sensor_key m) (start_time m) (end_time m) d.

(** [int(window / interval)] as a [maxlen]: the division raises on a zero
    interval and [deque] rejects a negative length. *)
Definition window_maxlen (window interval : Q) : Result nat :=
  if Qeq_bool interval 0 then Raise "float division by zero"
  else
    let n := Float.int_of_float (Float.fdiv window interval) in
    if n <? 0 then Raise "maxlen must be non-negative" else Ok (Z.to_nat n).

(** [CPUMonitor.__init__], with [now] the reading of [datetime.now()]. *)
Definition CPUMonitor_init (cfg : Settings) (now : datetime) : Result CPUMonitor :=
  match window_maxlen (window_duration_sec cfg) (sample_interval_sec cfg),
        window_maxlen (window_duration_sec cfg) (temp_sample_interval_sec cfg) with
  | Ok c, Ok ct =>
      Ok (mkCPUMonitor (deque_new c) (deque_new ct) (deque_new c) (deque_new c)
            0 true None (Some now) None (deque_new c))
  | Raise e, _ => Raise e
  | Ok _, Raise e => Raise e
  end.

(** *** State and exceptions

    A method body runs on the monitor and the event log; an exception
    leaves both as they were when it was raised. *)
Definition World : Type := (CPUMonitor * list Event)%type.

Definition M (A : Type) : Type := World -> Result A * World.

Definition ret {A : Type} (a : A) : M A := fun w => (Ok a, w).

Definition bind {A B : Type} (c : M A) (k : A -> M B) : M B :=
  fun w =>
    match c w with
    | (Ok a, w') => k a w'
    | (Raise e, w') => (Raise e, w')
    end.

Definition try_except {A : Type} (c : M A) (handler : string -> M A) : M A :=
  fun w =>
    match c w with
    | (Ok a, w') => (Ok a, w')
    | (Raise e, w') => handler e w'
    end.

Definition call {A : Type} (ev : Event) (answer : Result A) : M A :=
  fun w => (answer, (fst w, snd w ++ [ev])).

Definition modify (f : CPUMonitor -> CPUMonitor) : M unit :=
  fun w => (Ok tt, (f (fst w), snd w)).

Definition self : M CPUMonitor := fun w => (Ok (fst w), w).

Definition exec {A : Type} (c : M A) (w : World) : World := snd (c w).

Declare Scope monad_scope.
Delimit Scope monad_scope with monad.
Notation "x <- c ;; k" := (bind c (fun x => k))
  (at level 61, c at next level, right associativity) : monad_scope.
Notation "c ;; k" := (bind c (fun _ => k))
  (at level 61, right associativity) : monad_scope.
Local Open Scope monad_scope.

(** [t.label and ("package" in t.label.lower() or "core 0" in t.label.lower())] *)
Definition label_matches (t : shwtemp) : bool :=
  negb (String.eqb (label t) "")
  && (contains "package" (lower (label t)) || contains "core 0" (lower (label t))).

(** [next((t.current for t in entries if ...), None)] *)
Definition first_match (entries : list shwtemp) : option Q :=
  option_map current (find label_matches entries).

(** Truthiness of [match]: [None] and [0.0] are false. *)
Definition truthy (v : option Q) : bool :=
  match v with
  | Some x => negb (Qeq_bool x 0)
  | None => false
  end.

(** [match or (entries[0].current if entries else None)] *)
Definition match_or_first (entries : list shwtemp) : option Q :=
  let m := first_match entries in
  if truthy m then m
  else match entries with
       | t :: _ => Some (current t)
       | [] => None
       end.

Definition key_truthy (k : option string) : option string :=
  match k with
  | Some key => if String.eqb key "" then None else Some key
  | None => None
  end.

(** The body of [_read_temperature] once the sensor table is in hand. *)
Definition select_temperature (key : option string) (temps : sensor_table) : option Q :=
  match key_truthy key with
  | Some key =>
      match table_get key temps with
      | Some entries => match_or_first entries
      | None => None
      end
  | None => None
  end.

Definition _read_temperature (p : Platform) : M (option Q) :=
  try_except
    (temps <- call CallSensorsTemperatures (sensors_temperatures p) ;;
     m <- self ;;
     ret (select_temperature (_sensor_key m) temps))
    (fun _ => ret None).

Definition _detect_sensor_key (cfg : Settings) (p : Platform) : M (option string) :=
  try_except
    (temps <- call CallSensorsTemperatures (sensors_temperatures p) ;;
     ret (find (fun key => match table_get key temps with
                           | Some _ => true
                           | None => false
                           end) (cpu_sensor_keys cfg)))
    (fun _ => ret None).

Definition sample (cfg : Settings) (p : Platform) : M unit :=
  try_except
    (now <- call CallDatetimeNow (Ok (now_strftime p)) ;;
     modify (fun m => set_timestamps (deque_append (timestamps m) now) m) ;;
     c <- call CallCpuPercent (cpu_percent p) ;;
     modify (fun m => set_cpu_samples (deque_append (cpu_samples m) c) m) ;;
     f <- call CallCpuFreq (cpu_freq p) ;;
     modify (fun m => set_freq_samples
                        (deque_append (freq_samples m)
                           (match f with
                            | Some fr => freq_current fr
                            | None => 0%Q
                            end)) m) ;;
     l <- call CallGetloadavg (getloadavg p) ;;
     modify (fun m => set_load_samples (deque_append (load_samples m) l) m) ;;
     now_ts <- call CallTimeTime (Ok (time_time p)) ;;
     m <- self ;;
     if Qle_bool (temp_sample_interval_sec cfg)
          (Float.fsub now_ts (_last_temp_time m))
     then
       temp <- _read_temperature p ;;
       match temp with
       | Some t => modify (fun m => set_temp_samples (deque_append (temp_samples m) t) m)
       | None => ret tt
       end ;;
       modify (set_last_temp_time now_ts)
     else ret tt)
    (fun e => call (ConsoleLog ("[red]Error during sampling: " ++ e ++ "[/red]")) (Ok tt)).

(** A run of ticks, one platform answer set per tick. *)
Definition ticks (cfg : Settings) (ps : list Platform) (w : World) : World :=
  fold_left (fun w p => exec (sample cfg p) w) ps w.

(** [run]: resolve the sensor key once, then tick while [running] is set.
    The list of platform answers bounds the number of iterations. *)
Fixpoint run_loop (cfg : Settings) (ps : list Platform) (w : World) : World :=
  match ps with
  | [] => w
  | p :: ps' => if running (fst w) then run_loop cfg ps' (exec (sample cfg p) w) else w
  end.

Definition run (cfg : Settings) (p0 : Platform) (ps : list Platform) (w : World) : World :=
  run_loop cfg ps
    (exec (k <- _detect_sensor_key cfg p0 ;; modify (set_sensor_key k)) w).

(** [statistics.mean]: the data are summed exactly as fractions and the
    quotient is converted to a float once, at the end. *)
Definition exact_sum (data : list Q) : Q := fold_left Qplus data 0%Q.

Definition mean (data : list Q) : Result Q :=
  match data with
  | [] => Raise "mean requires at least one data point"
  | _ :: _ => Ok (Float.to_float (exact_sum data / inject_Z (Z.of_nat (length data))))
  end.

Definition avg (data : deque Q) : Result Q :=
  match items data with
  | _ :: _ => mean (items data)
  | [] => Ok 0%Q
  end.

(** [stop], with [now] the reading of [datetime.now()]. *)
Definition stop (now : datetime) (m : CPUMonitor) : CPUMonitor :=
  set_end_time (Some now) (set_running false m).

(** ** CSV export

    The rows handed to [writer.writerow] inside the [with open] block of
    [save_data_log], header first.  A cell is the Python object placed in
    the row, before [csv] renders it. *)
Inductive Cell : Type :=
| CellInt (n : Z)
| CellStr (s : string)
| CellFloat (x : Q).

Definition rbind {A B : Type} (r : Result A) (k : A -> Result B) : Result B :=
  match r with
  | Ok a => k a
  | Raise e => Raise e
  end.

Notation "'let?' x ':=' r 'in' k" := (rbind r (fun x => k))
  (at level 10, x pattern, r at level 100, k at level 200).

Fixpoint rmap {A B : Type} (f : A -> Result B) (l : list A) : Result (list B) :=
  match l with
  | [] => Ok []
  | a :: l' => let? b := f a in let? bs := rmap f l' in Ok (b :: bs)
  end.

Definition csv_header : list Cell :=
  [CellStr "Sample #"; CellStr "Timestamp"; CellStr "CPU Usage (%)";
   CellStr "Temperature (°C)"; CellStr "Frequency (MHz)";
   CellStr "Load1"; CellStr "Load5"; CellStr "Load15"].

Definition csv_row (m : CPUMonitor) (i : nat) : Result (list Cell) :=
  let? ts := (if (i <? deque_len (timestamps m))%nat
              then deque_getitem (timestamps m) i else Ok ""%string) in
  let? cpu := (if (i <? deque_len (cpu_samples m))%nat
               then let? v := deque_getitem (cpu_samples m) i in Ok (format_1f v)
               else Ok ""%string) in
  let? temp := (if (i <? deque_len (temp_samples m))%nat
                then let? v := deque_getitem (temp_samples m) i in Ok (format_1f v)
                else Ok "N/A"%string) in
  let? freq := (if (i <? deque_len (freq_samples m))%nat
                then let? v := deque_getitem (freq_samples m) i in Ok (format_1f v)
                else Ok ""%string) in
  let? load := (if (i <? deque_len (load_samples m))%nat
                then let? v := deque_getitem (load_samples m) i in
                     Ok (CellFloat (fst (fst v)), CellFloat (snd (fst v)), CellFloat (snd v))
                else Ok (CellStr "", CellStr "", CellStr "")) in
  Ok [CellInt (Z.of_nat i + 1); CellStr ts; CellStr cpu; CellStr temp; CellStr freq;
      fst (fst load); snd (fst load); snd load].

Definition save_data_log_rows (m : CPUMonitor) : Result (list (list Cell)) :=
  let? rows := rmap (csv_row m) (seq 0 (deque_len (cpu_samples m))) in
  Ok (csv_header :: rows).

(** The cells of row [i], column by column. *)
Definition row_shape (m : CPUMonitor) (i : nat) (row : list Cell) : Prop :=
  exists ts cpu temp freq l1 l5 l15,
    row = [CellInt (Z.of_nat i + 1); CellStr ts; CellStr cpu; CellStr temp;
           CellStr freq; l1; l5; l15]
    /\ ((deque_len (timestamps m) <= i)%nat -> ts = ""%string)
    /\ (forall v, nth_error (items (timestamps m)) i = Some v -> ts = v)
    /\ (forall v, nth_error (items (cpu_samples m)) i = Some v -> cpu = format_1f v)
    /\ ((deque_len (temp_samples m) <= i)%nat -> temp = "N/A"%string)
    /\ (forall v, nth_error (items (temp_samples m)) i = Some v -> temp = format_1f v)
    /\ ((deque_len (freq_samples m) <= i)%nat -> freq = ""%string)
    /\ (forall v, nth_error (items (freq_samples m)) i = Some v -> freq = format_1f v)
    /\ ((deque_len (load_samples m) <= i)%nat ->
        l1 = CellStr "" /\ l5 = CellStr "" /\ l15 = CellStr "")
    /\ (forall a b c, nth_error (items (load_samples m)) i = Some (a, b, c) ->
        l1 = CellFloat a /\ l5 = CellFloat b /\ l15 = CellFloat c).

(** ** The stages of one tick

    The monitor after each statement of [sample], named so that the case
    analysis of a tick can refer to them. *)
Definition error_line (e : string) : Event :=
  ConsoleLog ("[red]Error during sampling: " ++ e ++ "[/red]").

Definition after_now (p : Platform) (m : CPUMonitor) : CPUMonitor :=
  set_timestamps (deque_append (timestamps m) (now_strftime p)) m.

Definition after_cpu (c : Q) (m : CPUMonitor) : CPUMonitor :=
  set_cpu_samples (deque_append (cpu_samples m) c) m.

(** [cpu_freq.current if cpu_freq else 0.0] *)
Definition freq_or_sentinel (f : option scpufreq) : Q :=
  match f with
  | Some fr => freq_current fr
  | None => 0%Q
  end.

Definition after_freq (f : option scpufreq) (m : CPUMonitor) : CPUMonitor :=
  set_freq_samples (deque_append (freq_samples m) (freq_or_sentinel f)) m.

Definition after_load (l : Q * Q * Q) (m : CPUMonitor) : CPUMonitor :=
  set_load_samples (deque_append (load_samples m) l) m.

(** Whether the temperature branch of a tick is taken from monitor [m]. *)
Definition temp_due (cfg : Settings) (p : Platform) (m : CPUMonitor) : bool :=
  Qle_bool (temp_sample_interval_sec cfg)
    (Float.fsub (time_time p) (_last_temp_time m)).

(** What [_read_temperature] returns for a monitor with sensor key [k]. *)
Definition temperature_reading (p : Platform) (k : option string) : option Q :=
  match sensors_temperatures p with
  | Ok temps => select_temperature k temps
  | Raise _ => None
  end.

Definition after_temp (p : Platform) (m : CPUMonitor) : CPUMonitor :=
  set_last_temp_time (time_time p)
    (match temperature_reading p (_sensor_key m) with
     | Some t => set_temp_samples (deque_append (temp_samples m) t) m
     | None => m
     end).

(** [append] of a value that may be missing, and the history it leaves. *)
Definition deque_append_opt {A : Type} (d : deque A) (o : option A) : deque A :=
  match o with
  | Some x => deque_append d x
  | None => d
  end.

Definition history {A : Type} (val : Platform -> option A) (ps : list Platform) : list A :=
  flat_map (fun p => match val p with
                     | Some x => [x]
                     | None => []
                     end) ps.

Definition cpu_value (p : Platform) : option Q :=
  match cpu_percent p with
  | Ok c => Some c
  | Raise _ => None
  end.

Definition freq_value (p : Platform) : option Q :=
  match cpu_freq p with
  | Ok f => Some (freq_or_sentinel f)
  | Raise _ => None
  end.

Definition load_value (p : Platform) : option (Q * Q * Q) :=
  match getloadavg p with
  | Ok l => Some l
  | Raise _ => None
  end.

Definition cpu_ok (p : Platform) : Prop := exists c, cpu_percent p = Ok c.

(** The successful CPU-percent readings of a run of ticks, in order. *)
Definition cpu_reads (ps : list Platform) : list Q := history cpu_value ps.

(** A tick in which no base-cadence read raises. *)
Definition no_raise (p : Platform) : Prop :=
  (exists c, cpu_percent p = Ok c)
  /\ (exists f, cpu_freq p = Ok f)
  /\ (exists l, getloadavg p = Ok l).

(** ** Sample inputs

    Platform answers and settings used to run the model on concrete
    ticks. *)
Definition coretemp_table : sensor_table :=
  [("coretemp"%string,
    [mkShwtemp "Package id 0" 55 (Some 80%Q) (Some 100%Q);
     mkShwtemp "Core 0" 52 (Some 80%Q) (Some 100%Q);
     mkShwtemp "Core 1" 50 (Some 80%Q) (Some 100%Q)])].

Definition tick_ok (c now_ts : Q) : Platform :=
  mkPlatform "2024-05-01 12:00:00" (Ok c)
    (Ok (Some (mkScpufreq 2400 800 3600))) (Ok (1 # 2, 3 # 4, 1)%Q) now_ts
    (Ok coretemp_table).

Definition tick_cpu_fails (now_ts : Q) : Platform :=
  mkPlatform "2024-05-01 12:00:01" (Raise "cpu_percent unavailable")
    (Ok (Some (mkScpufreq 2400 800 3600))) (Ok (1 # 2, 3 # 4, 1)%Q) now_ts
    (Ok coretemp_table).

Definition tick_sensors_fail (now_ts : Q) : Platform :=
  mkPlatform "2024-05-01 12:00:04" (Ok 10%Q)
    (Ok (Some (mkScpufreq 2400 800 3600))) (Ok (1 # 2, 3 # 4, 1)%Q) now_ts
    (Raise "sensors unavailable").

Definition tick_no_freq (c now_ts : Q) : Platform :=
  mkPlatform "2024-05-01 12:00:02" (Ok c) (Ok None) (Ok (1 # 2, 3 # 4, 1)%Q)
    now_ts (Ok coretemp_table).

(** A three-slot window: [int(1.5 / 0.5)]. *)
Definition small_settings : Settings :=
  mkSettings (1 # 2) 1 (3 # 2) 40 (cpu_sensor_keys SETTINGS).

Definition small_monitor : CPUMonitor :=
  mkCPUMonitor (deque_new 3) (deque_new 1) (deque_new 3) (deque_new 3)
    0 true None (Some 0) None (deque_new 3).

Definition fresh_monitor : CPUMonitor :=
  mkCPUMonitor (deque_new 20) (deque_new 5) (deque_new 20) (deque_new 20)
    0 true None (Some 0) None (deque_new 20).

(** A sensor group whose package entry reads 0.0 degrees. *)
Definition zero_package_entries : list shwtemp :=
  [mkShwtemp "Core 1" 45 None None; mkShwtemp "Package id 0" 0 None None].

Definition tick_zero_package : Platform :=
  mkPlatform "2024-05-01 12:00:03" (Ok 10%Q) (Ok None) (Ok (1 # 2, 3 # 4, 1)%Q)
    100 (Ok [("coretemp"%string, zero_package_entries)]).

(** Five CPU samples, two temperature samples, as left by a stopped run. *)
Definition export_monitor : CPUMonitor :=
  mkCPUMonitor
    (mkDeque 20 [50; 75; 95; 60; 41 # 2]%Q)
    (mkDeque 5 [55; 56]%Q)
    (mkDeque 20 [2400; 2400; 0; 1800; 2400]%Q)
    (mkDeque 20 [(1, 1, 1); (1, 1, 1); (2, 1, 1); (2, 1, 1); (2, 2, 1)]%Q)
    4 false (Some "coretemp"%string) (Some 0) (Some 3)
    (mkDeque 20 ["2024-05-01 12:00:00"; "2024-05-01 12:00:00";
                 "2024-05-01 12:00:01"; "2024-05-01 12:00:01";
                 "2024-05-01 12:00:02"]%string).

(** ** Window invariant

    Every window within its capacity, as [deque] keeps it. *)
Definition within_capacity {A : Type} (d : deque A) : Prop :=
  (deque_len d <= maxlen d)%nat.

Definition windows_bounded (m : CPUMonitor) : Prop :=
  within_capacity (cpu_samples m)
  /\ within_capacity (temp_samples m)
  /\ within_capacity (freq_samples m)
  /\ within_capacity (load_samples m)
  /\ within_capacity (timestamps m).

(** The capacities of the five windows, in the order of [__init__]. *)
Definition capacities (m : CPUMonitor) : list nat :=
  [maxlen (cpu_samples m); maxlen (temp_samples m); maxlen (freq_samples m);
   maxlen (load_samples m); maxlen (timestamps m)].

Definition is_console_log (ev : Event) : bool :=
  match ev with
  | ConsoleLog _ => true
  | _ => false
  end.

(** ** More of Python: [str], [min], [max], [divmod], [os.path.join] *)
Definition nl : string := String (ascii_of_nat 10) EmptyString.

(** [str(n)] for an [int]. *)
Definition string_of_int (z : Z) : string :=
  if z <? 0 then ("-" ++ string_of_nonneg (- z))%string else string_of_nonneg z.

(** [".2f"]: as [format_1f], with two decimals. *)
Definition format_2f (x : Q) : string :=
  let n := Float.round_half_even (Qabs x * 100) in
  ((if Qle_bool 0 x then "" else "-")
     ++ string_of_nonneg (n / 100) ++ "."
     ++ string_of_nonneg (n mod 100 / 10) ++ string_of_nonneg (n mod 10))%string.

Definition Qlt_bool (a b : Q) : bool := negb (Qle_bool b a).

(** [max(seq)] and [min(seq)]: the first element is kept until a strictly
    larger (smaller) one comes; an empty sequence is a [ValueError]. *)
Definition py_max (l : list Q) : Result Q :=
  match l with
  | [] => Raise "max() arg is an empty sequence"
  | x :: rest => Ok (fold_left (fun best y => if Qlt_bool best y then y else best) rest x)
  end.

Definition py_min (l : list Q) : Result Q :=
  match l with
  | [] => Raise "min() arg is an empty sequence"
  | x :: rest => Ok (fold_left (fun best y => if Qlt_bool y best then y else best) rest x)
  end.

(** [max(seq, default=0)] *)
Definition py_max_default (l : list Q) (default : Q) : Result Q :=
  match l with
  | [] => Ok default
  | _ :: _ => py_max l
  end.

(** Whitespace as [str.isspace] and [str.strip] see it.  A Python string
    is carried as its UTF-8 bytes, so a whitespace character is one byte
    (TAB to CR, FS to US, space), two bytes (U+0085, U+00A0) or three
    bytes (U+1680, U+2000 to U+200A, U+2028, U+2029, U+202F, U+205F,
    U+3000). *)
Definition is_space (c : ascii) : bool :=
  let n := nat_of_ascii c in
  ((9 <=? n) && (n <=? 13) || (28 <=? n) && (n <=? 32))%nat.

Definition is_space2 (a b : ascii) : bool :=
  let y := nat_of_ascii b in
  ((nat_of_ascii a =? 194) && ((y =? 133) || (y =? 160)))%nat.

Definition is_space3 (a b c : ascii) : bool :=
  let x := nat_of_ascii a in
  let y := nat_of_ascii b in
  let z := nat_of_ascii c in
  ((x =? 225) && (y =? 154) && (z =? 128)
   || (x =? 226) && (y =? 128)
      && ((128 <=? z) && (z <=? 138) || (z =? 168) || (z =? 169) || (z =? 175))
   || (x =? 226) && (y =? 129) && (z =? 159)
   || (x =? 227) && (y =? 128) && (z =? 128))%nat.

Fixpoint lstrip (s : string) : string :=
  match s with
  | EmptyString => EmptyString
  | String a s1 =>
      if is_space a then lstrip s1
      else
        match s1 with
        | EmptyString => s
        | String b s2 =>
            if is_space2 a b then lstrip s2
            else
              match s2 with
              | EmptyString => s
              | String c s3 => if is_space3 a b c then lstrip s3 else s
              end
        end
  end.

(** A string made of whitespace characters only. *)
Definition all_space (s : string) : bool :=
  match lstrip s with
  | EmptyString => true
  | String _ _ => false
  end.

(** Drop trailing whitespace: cut at the first position from which only
    whitespace follows. *)
Fixpoint rstrip (s : string) : string :=
  match s with
  | EmptyString => EmptyString
  | String c s' => if all_space s then EmptyString else String c (rstrip s')
  end.

Definition strip (s : string) : string := rstrip (lstrip s).

(** One whitespace character, as its one, two or three bytes. *)
Definition ws_char (w : string) : bool :=
  match w with
  | String a EmptyString => is_space a
  | String a (String b EmptyString) => negb (is_space a) && is_space2 a b
  | String a (String b (String c EmptyString)) =>
      negb (is_space a) && negb (is_space2 a b) && is_space3 a b c
  | _ => false
  end.

(** U+00A0, the no-break space. *)
Definition nbsp : string :=
  String (ascii_of_nat 194) (String (ascii_of_nat 160) EmptyString).

Fixpoint ends_with_sep (s : string) : bool :=
  match s with
  | EmptyString => false
  | String c EmptyString => Ascii.eqb c "/"
  | String _ s' => ends_with_sep s'
  end.

(** [os.path.join(a, b)] on POSIX. *)
Definition os_path_join (a b : string) : string :=
  if String.prefix "/" b then b
  else if (String.eqb a "" || ends_with_sep a)%bool then (a ++ b)%string
  else (a ++ "/" ++ b)%string.

(** ** Summary

    A [datetime] counts microseconds, so that the difference of two is a
    [timedelta]; [strftime] is the rendering with the format the script
    uses and is left to the caller. *)
Definition total_seconds (delta : Z) : Q :=
  Float.to_float (inject_Z delta / inject_Z 1000000).

(** [hours, minutes, seconds] as computed for the duration line. *)
Definition duration_hms (start_ end_ : datetime) : Z * Z * Z :=
  let total := Float.int_of_float (total_seconds (end_ - start_)) in
  let hours := total / 3600 in
  let remainder := total mod 3600 in
  let minutes := remainder / 60 in
  let seconds := remainder mod 60 in
  (hours, minutes, seconds).

Definition duration_str (start_ end_ : datetime) : string :=
  let '(hours, minutes, seconds) := duration_hms start_ end_ in
  (string_of_int hours ++ "h " ++ string_of_int minutes ++ "m "
     ++ string_of_int seconds ++ "s")%string.

(** The three statistics lines of a window, as [print_summary] prints
    them for a non-empty window. *)
Definition summary_stats (name unit : string) (warn crit : Q) (d : deque Q)
  : Result (list string) :=
  let? a := avg d in
  let? lo := py_min (items d) in
  let? hi := py_max (items d) in
  Ok [("Average " ++ name ++ ": " ++ colorize a warn crit unit)%string;
      ("Min " ++ name ++ ": " ++ colorize lo warn crit unit)%string;
      ("Max " ++ name ++ ": " ++ colorize hi warn crit unit)%string].

(** [print_summary]: the lines handed to [console.print], in order. *)
Definition print_summary (strftime : datetime -> string) (m : CPUMonitor)
  : Result (list string) :=
  let head := [(nl ++ "⚜️")%string; (nl ++ "[bold green]Summary:[/bold green]")%string] in
  let times :=
    match start_time m, end_time m with
    | Some st, Some en =>
        [("[cyan]Monitoring started:[/cyan] " ++ strftime st)%string;
         ("[cyan]Monitoring finished:[/cyan] " ++ strftime en)%string;
         ("[cyan]Total duration:[/cyan] " ++ duration_str st en ++ nl)%string]
    | _, _ => []
    end in
  let? cpu :=
    match items (cpu_samples m) with
    | _ :: _ => summary_stats "CPU usage" "%" (cpu_warn THRESHOLDS)
                  (cpu_crit THRESHOLDS) (cpu_samples m)
    | [] => Ok ["[yellow]No CPU usage data collected.[/yellow]"%string]
    end in
  let? temp :=
    match items (temp_samples m) with
    | _ :: _ => summary_stats "temperature" "°C" (temp_warn THRESHOLDS)
                  (temp_crit THRESHOLDS) (temp_samples m)
    | [] => Ok ["[yellow]No temperature data was collected.[/yellow]"%string]
    end in
  Ok (head ++ times ++ cpu ++ temp).

(** [signal_handler]: Ctrl-C stops the monitor. *)
Definition signal_handler (now : datetime) (monitor : CPUMonitor) : CPUMonitor :=
  stop now monitor.

(** ** UI Renderer

    [CPUUI] holds the progress bar's completed value and the core counts
    cached at construction ([psutil.cpu_count] may answer [None]).  A
    rendering is the list of rows added to the grid. *)
Record CPUUI : Type := mkCPUUI {
  completed : Q;
  _cpu_info_cached : option Z * option Z
}.

Inductive Renderable : Type :=
| RowProgress (completed : Q)
| RowText (s : string).

Definition str_of_count (c : option Z) : string :=
  match c with
  | Some n => string_of_int n
  | None => "None"
  end.

(** [m.cpu_samples[-1] if m.cpu_samples else 0.0] *)
Definition ui_current_cpu (m : CPUMonitor) : Result Q :=
  match items (cpu_samples m) with
  | _ :: _ => deque_last (cpu_samples m)
  | [] => Ok 0%Q
  end.

(** [max(m.cpu_samples, default=0)] *)
Definition ui_peak_cpu (m : CPUMonitor) : Result Q :=
  py_max_default (items (cpu_samples m)) 0.

(** The temperature row of the grid. *)
Definition ui_temp_row (m : CPUMonitor) : Result string :=
  match items (temp_samples m) with
  | _ :: _ =>
      let? current_temp := deque_last (temp_samples m) in
      let? avg_temp := avg (temp_samples m) in
      Ok ("Current Temp: "
            ++ colorize current_temp (temp_warn THRESHOLDS) (temp_crit THRESHOLDS) "°C"
            ++ " | Average Temp: "
            ++ colorize avg_temp (temp_warn THRESHOLDS) (temp_crit THRESHOLDS) "°C")%string
  | [] => Ok "[yellow]No temperature data[/yellow]"%string
  end.

(** [make_renderable]: the UI after the call (the progress bar is updated
    before anything can raise) and the rows of the grid, or the exception
    that escaped.  [p] answers the two platform calls the method makes. *)
Definition make_renderable (ui : CPUUI) (m : CPUMonitor) (p : Platform)
  : CPUUI * Result (list Renderable) :=
  match ui_current_cpu m with
  | Raise e => (ui, Raise e)
  | Ok current_cpu =>
      let ui' := mkCPUUI current_cpu (_cpu_info_cached ui) in
      (ui',
       let? avg_cpu := avg (cpu_samples m) in
       let? peak_cpu := ui_peak_cpu m in
       let? cpu_load := getloadavg p in
       let stats :=
         ("Average CPU: "
            ++ colorize avg_cpu (cpu_warn THRESHOLDS) (cpu_crit THRESHOLDS) "%"
            ++ " | Peak: "
            ++ colorize peak_cpu (cpu_warn THRESHOLDS) (cpu_crit THRESHOLDS) "%"
            ++ " | 1 minute load average: " ++ format_2f (fst (fst cpu_load)))%string in
       let cores :=
         ("Logical CPU Cores: " ++ str_of_count (fst (_cpu_info_cached ui))
            ++ " | Physical CPU Cores: " ++ str_of_count (snd (_cpu_info_cached ui)))%string in
       let? temp_row := ui_temp_row m in
       let? cpu_freq_now := cpu_freq p in
       Ok ([RowProgress current_cpu; RowText stats; RowText cores; RowText temp_row]
             ++ match cpu_freq_now with
                | Some fr =>
                    [RowText ("Current CPU Frequency: "
                                ++ string_of_int (Float.int_of_float (freq_current fr))
                                ++ " MHz")%string]
                | None => []
                end))
  end.

(** ** Saving the log

    What the terminal and the file system answer to [save_data_log]:
    the two [input] lines, the working directory, the time stamp of the
    file name, and whether [os.makedirs] and the writing of the file go
    through. *)
Record Terminal : Type := mkTerminal {
  input_choice : Result string;
  input_outdir : Result string;
  getcwd : string;
  now_stamp : string;
  makedirs : string -> Result unit;
  open_write : string -> Result unit
}.

Inductive IOEvent : Type :=
| Prompted (prompt : string)
| Printed (line : string)
| MadeDirs (dir : string)
| Wrote (path : string) (rows : list (list Cell)).

(** [save_data_log]: what was done, in order, and whether the function
    returned or let an exception out. *)
Definition save_data_log (t : Terminal) (m : CPUMonitor)
  : list IOEvent * Result unit :=
  let prompt1 := Prompted (nl ++ "Do you want to save the collected data to CSV? [y/N]: ") in
  match input_choice t with
  | Raise e => ([prompt1], Raise e)
  | Ok answer =>
      let choice := lower (strip answer) in
      if negb (String.eqb choice "y")
      then ([prompt1; Printed "[yellow]Data was not saved.[/yellow]"], Ok tt)
      else
        let default_dir := getcwd t in
        let prompt2 :=
          Prompted ("Enter directory to save log [" ++ default_dir ++ "]: ") in
        match input_outdir t with
        | Raise e => ([prompt1; prompt2], Raise e)
        | Ok answer2 =>
            let outdir := if String.eqb (strip answer2) "" then default_dir
                          else strip answer2 in
            match makedirs t outdir with
            | Raise e => ([prompt1; prompt2], Raise e)
            | Ok _ =>
                let filename := ("cpu_log_" ++ now_stamp t ++ ".csv")%string in
                let filepath := os_path_join outdir filename in
                match (let? _ := open_write t filepath in save_data_log_rows m) with
                | Ok rows =>
                    ([prompt1; prompt2; MadeDirs outdir; Wrote filepath rows;
                      Printed ("[green]Data saved successfully to " ++ filepath
                                 ++ "[/green]")],
                     Ok tt)
                | Raise e =>
                    ([prompt1; prompt2; MadeDirs outdir;
                      Printed ("[red]Failed to save data: " ++ e ++ "[/red]")],
                     Ok tt)
                end
            end
        end
  end.

(** An answer that is a single [y] or [Y] with only whitespace around it.
    No other character lower-cases to [y], so on the stripped answer the
    ASCII [lower] decides the comparison with ["y"] as [str.lower] does. *)
Definition says_yes (answer : string) : Prop :=
  exists pre post c,
    answer = (pre ++ String c post)%string
    /\ all_space pre = true /\ all_space post = true
    /\ (c = "y"%char \/ c = "Y"%char).

Definition save_prompt : IOEvent :=
  Prompted (nl ++ "Do you want to save the collected data to CSV? [y/N]: ").

Definition outdir_prompt (t : Terminal) : IOEvent :=
  Prompted ("Enter directory to save log [" ++ getcwd t ++ "]: ").

(** The directory and the file [save_data_log] settles on for a directory
    answer [answer2]. *)
Definition chosen_outdir (t : Terminal) (answer2 : string) : string :=
  if String.eqb (strip answer2) "" then getcwd t else strip answer2.

Definition log_filename (t : Terminal) : string :=
  ("cpu_log_" ++ now_stamp t ++ ".csv")%string.

(** Sample terminal: the user answers [" Y"] followed by a no-break space
    and leaves the directory blank (a no-break space and a space). *)
Definition terminal_yes : Terminal :=
  mkTerminal (Ok (" Y" ++ nbsp)%string) (Ok (nbsp ++ " ")%string) "/home/user"
    "2024-05-01_12-00-05" (fun _ => Ok tt) (fun _ => Ok tt).

Definition terminal_no : Terminal :=
  mkTerminal (Ok "yes"%string) (Ok "/tmp"%string) "/home/user" "2024-05-01_12-00-05"
    (fun _ => Ok tt) (fun _ => Ok tt).

Definition terminal_readonly : Terminal :=
  mkTerminal (Ok "y"%string) (Ok "/tmp/logs/"%string) "/home/user"
    "2024-05-01_12-00-05" (fun _ => Ok tt) (fun _ => Raise "Permission denied").

(** * Facts about the float model *)
Module FloatFacts.
Import Float.

Lemma pow2_pos e : (0 < pow2 e)%Q.
Proof. apply Qpower_0_lt. reflexivity. Qed.

Lemma pow2_add a b : (pow2 (a + b) == pow2 a * pow2 b)%Q.
Proof. apply Qpower_plus. discriminate. Qed.

Lemma pow2_inject k : 0 <= k -> (pow2 k == inject_Z (2 ^ k))%Q.
Proof. intros Hk. unfold pow2. now rewrite (Zpower_Qpower 2 k Hk). Qed.

Lemma pow2_lt_inv a b : (pow2 a < pow2 b)%Q -> a < b.
Proof. intros H. apply (Qpower_lt_compat_l_inv 2); [exact H | reflexivity]. Qed.

Lemma round_half_even_comp x y :
  (x == y)%Q -> round_half_even x = round_half_even y.
Proof.
  intros H. unfold round_half_even.
  rewrite (Qfloor_comp _ _ H).
  assert (E : (x - inject_Z (Qfloor y) ?= 1 # 2)%Q
              = (y - inject_Z (Qfloor y) ?= 1 # 2)%Q).
  { apply Qcompare_comp; [now rewrite H | reflexivity]. }
  now rewrite E.
Qed.

Lemma round_half_even_Z z : round_half_even (inject_Z z) = z.
Proof.
  unfold round_half_even. rewrite Qfloor_Z.
  assert (E : (inject_Z z - inject_Z z ?= 1 # 2)%Q = Lt).
  { apply Qlt_alt. setoid_replace (inject_Z z - inject_Z z)%Q with 0%Q by ring.
    reflexivity. }
  now rewrite E.
Qed.

Lemma mag_lower x : ~ (x == 0)%Q -> (pow2 (mag x - 1) <= Qabs x)%Q.
Proof.
  intros Hx. unfold mag.
  destruct x as [n d]. cbn [Qnum Qden].
  set (a := Z.log2 (Z.abs n)). set (b := Z.log2 (Z.pos d)).
  destruct (Qle_bool (pow2 (a - b)) (Qabs (n # d))) eqn:E.
  - apply Qle_bool_iff in E. now replace (a - b + 1 - 1) with (a - b) by lia.
  - clear E.
    assert (Hn : 0 < Z.abs n).
    { destruct n; try reflexivity. exfalso. apply Hx. reflexivity. }
    pose proof (Z.log2_spec _ Hn) as [Ha _]. fold a in Ha.
    pose proof (Z.log2_spec (Z.pos d) eq_refl) as [_ Hb]. fold b in Hb.
    pose proof (Z.log2_nonneg (Z.abs n)) as Ha0. fold a in Ha0.
    pose proof (Z.log2_nonneg (Z.pos d)) as Hb0. fold b in Hb0.
    replace (a - b - 1) with (a - (b + 1)) by lia.
    unfold pow2. rewrite Qpower_minus by discriminate.
    fold (pow2 a). fold (pow2 (b + 1)).
    rewrite (pow2_inject a), (pow2_inject (b + 1)) by lia.
    replace (Z.succ b) with (b + 1) in Hb by lia.
    assert (HB : 0 < 2 ^ (b + 1)) by (apply Z.pow_pos_nonneg; lia).
    rewrite <- (Z2Pos.id _ HB). rewrite <- Qmake_Qdiv.
    unfold Qabs, Qle. cbn [Qnum Qden].
    rewrite Z2Pos.id by exact HB.
    apply Z.mul_le_mono_nonneg; lia.
Qed.

Lemma to_float_id x : is_float x -> (to_float x == x)%Q.
Proof.
  intros (m & e & He & Hm & Hx). unfold to_float.
  pose proof (Qred_correct x) as Hr.
  destruct (Qeq_bool (Qred x) 0) eqn:E.
  - apply Qeq_bool_iff in E. now rewrite <- Hr, E.
  - apply Qeq_bool_neq in E.
    rewrite Qred_correct.
    set (fe := fexp (mag (Qred x))).
    assert (Hfe : fe <= e).
    { pose proof (mag_lower _ E) as Hl.
      assert (Hu : (Qabs (Qred x) < pow2 (prec + e))%Q).
      { rewrite Hr, Hx, Qabs_Qmult, pow2_add.
        rewrite (Qabs_pos (pow2 e)) by (apply Qlt_le_weak, pow2_pos).
        apply Qmult_lt_compat_r; [apply pow2_pos|].
        rewrite (pow2_inject prec) by (unfold prec; lia).
        unfold Qabs, inject_Z, Qlt. cbn [Qnum Qden]. lia. }
      pose proof (pow2_lt_inv _ _ (Qle_lt_trans _ _ _ Hl Hu)).
      unfold fe, fexp. lia. }
    assert (Hi : (Qred x * pow2 (- fe) == inject_Z (m * 2 ^ (e - fe)))%Q).
    { rewrite Hr, Hx, inject_Z_mult, <- (pow2_inject (e - fe)) by lia.
      rewrite <- Qmult_assoc, <- pow2_add. reflexivity. }
    rewrite (round_half_even_comp _ _ Hi), round_half_even_Z.
    rewrite inject_Z_mult, <- (pow2_inject (e - fe)) by lia.
    rewrite <- Qmult_assoc, <- pow2_add.
    replace (e - fe + fe) with e by lia. now rewrite Hx.
Qed.

End FloatFacts.

(** * Facts about bounded deques *)
Section DequeFacts.
Context {A : Type}.
Implicit Types (d : deque A) (l : list A) (x : A).

Lemma tl_skipn l : tl l = skipn 1 l.
Proof. now destruct l. Qed.

Lemma lastn_nil n : lastn n (@nil A) = [].
Proof. unfold lastn. apply skipn_nil. Qed.

Lemma length_lastn n l : length (lastn n l) = Nat.min (length l) n.
Proof. unfold lastn. rewrite length_skipn. lia. Qed.

Lemma lastn_all n l : (length l <= n)%nat -> lastn n l = l.
Proof.
  intros H. unfold lastn. now replace (length l - n)%nat with 0%nat by lia.
Qed.

(** One [append] on a window that shows the last [n] of a history shows
    the last [n] of the extended history. *)
Lemma lastn_snoc n l x :
  (let l' := lastn n l ++ [x] in if (n <? length l')%nat then tl l' else l')
  = lastn n (l ++ [x]).
Proof.
  cbv zeta. rewrite length_app, length_lastn. cbn [length].
  unfold lastn. rewrite length_app. cbn [length].
  destruct (Nat.ltb_spec n (Nat.min (length l) n + 1)) as [H | H].
  - rewrite tl_skipn, skipn_app, skipn_skipn, length_skipn.
    replace (1 - (length l - (length l - n)))%nat with
      (if (n =? 0)%nat then 1%nat else 0%nat) by (destruct (Nat.eqb_spec n 0); lia).
    rewrite (skipn_app (length l + 1 - n)).
    replace (length l + 1 - n - length l)%nat with
      (if (n =? 0)%nat then 1%nat else 0%nat) by (destruct (Nat.eqb_spec n 0); lia).
    f_equal. f_equal. lia.
  - rewrite skipn_app.
    replace (length l - n)%nat with 0%nat by lia.
    replace (length l + 1 - n)%nat with 0%nat by lia.
    reflexivity.
Qed.

Lemma deque_append_maxlen d x : maxlen (deque_append d x) = maxlen d.
Proof. reflexivity. Qed.

Lemma deque_append_lastn d l x :
  items d = lastn (maxlen d) l ->
  items (deque_append d x) = lastn (maxlen d) (l ++ [x]).
Proof.
  intros H. unfold deque_append. cbn [items]. rewrite H. apply lastn_snoc.
Qed.

Lemma deque_append_len_le d x :
  (deque_len d <= maxlen d)%nat ->
  (deque_len (deque_append d x) <= maxlen d)%nat.
Proof.
  unfold deque_len, deque_append. cbn [items maxlen]. intros H.
  rewrite length_app. cbn [length].
  destruct (Nat.ltb_spec (maxlen d) (length (items d) + 1)) as [H' | H'].
  - rewrite tl_skipn, length_skipn, length_app. cbn [length]. lia.
  - rewrite length_app. cbn [length]. lia.
Qed.

End DequeFacts.

(** * One sampling tick, case by case *)
Section SampleFacts.
Variable cfg : Settings.
Variable p : Platform.

Lemma _read_temperature_spec m tr :
  _read_temperature p (m, tr)
  = (Ok (temperature_reading p (_sensor_key m)),
     (m, tr ++ [CallSensorsTemperatures])).
Proof.
  unfold _read_temperature, temperature_reading, try_except, bind, call, self, ret.
  cbn [fst snd]. now destruct (sensors_temperatures p).
Qed.

#[local] Ltac sample_step :=
  unfold exec, sample, try_except, bind, call, modify, self, ret;
  cbn [fst snd].

Lemma sample_cpu_raise m tr e :
  cpu_percent p = Raise e ->
  exec (sample cfg p) (m, tr)
  = (after_now p m, tr ++ [CallDatetimeNow; CallCpuPercent; error_line e]).
Proof.
  intros H. sample_step. rewrite H. cbn [fst snd].
  now rewrite <- !app_assoc.
Qed.

Lemma sample_freq_raise m tr c e :
  cpu_percent p = Ok c ->
  cpu_freq p = Raise e ->
  exec (sample cfg p) (m, tr)
  = (after_cpu c (after_now p m),
     tr ++ [CallDatetimeNow; CallCpuPercent; CallCpuFreq; error_line e]).
Proof.
  intros H1 H2. sample_step. rewrite H1. cbn [fst snd]. rewrite H2. cbn [fst snd].
  now rewrite <- !app_assoc.
Qed.

Lemma sample_load_raise m tr c f e :
  cpu_percent p = Ok c ->
  cpu_freq p = Ok f ->
  getloadavg p = Raise e ->
  exec (sample cfg p) (m, tr)
  = (after_freq f (after_cpu c (after_now p m)),
     tr ++ [CallDatetimeNow; CallCpuPercent; CallCpuFreq; CallGetloadavg;
            error_line e]).
Proof.
  intros H1 H2 H3. sample_step.
  rewrite H1. cbn [fst snd]. rewrite H2. cbn [fst snd]. rewrite H3. cbn [fst snd].
  now rewrite <- !app_assoc.
Qed.

Lemma sample_ok m tr c f l :
  cpu_percent p = Ok c ->
  cpu_freq p = Ok f ->
  getloadavg p = Ok l ->
  exec (sample cfg p) (m, tr)
  = let m4 := after_load l (after_freq f (after_cpu c (after_now p m))) in
    let evs := [CallDatetimeNow; CallCpuPercent; CallCpuFreq; CallGetloadavg;
                CallTimeTime] in
    if temp_due cfg p m
    then (after_temp p m4, tr ++ evs ++ [CallSensorsTemperatures])
    else (m4, tr ++ evs).
Proof.
  intros H1 H2 H3. sample_step.
  rewrite H1. cbn [fst snd]. rewrite H2. cbn [fst snd]. rewrite H3. cbn [fst snd].
  unfold temp_due. cbn [_last_temp_time set_load_samples set_freq_samples
                         set_cpu_samples set_timestamps].
  destruct (Qle_bool _ _).
  - rewrite _read_temperature_spec. unfold after_temp.
    cbn [_sensor_key after_load after_freq after_cpu after_now set_load_samples
           set_freq_samples set_cpu_samples set_timestamps].
    destruct (temperature_reading p (_sensor_key m)); cbn [fst snd];
      now rewrite <- !app_assoc.
  - cbn [fst snd]. now rewrite <- !app_assoc.
Qed.

End SampleFacts.

(** Case analysis of one tick from world [(m, tr)]: which read raised, and
    whether the temperature branch ran. *)
Ltac sample_cases cfg p m tr :=
  let c := fresh "c" in
  let f := fresh "f" in
  let l := fresh "l" in
  let e := fresh "e" in
  let Hc := fresh "Hc" in
  let Hf := fresh "Hf" in
  let Hl := fresh "Hl" in
  let Hd := fresh "Hd" in
  destruct (cpu_percent p) as [c | e] eqn:Hc;
  [ destruct (cpu_freq p) as [f | e] eqn:Hf;
    [ destruct (getloadavg p) as [l | e] eqn:Hl;
      [ rewrite (sample_ok cfg p m tr c f l Hc Hf Hl); cbv zeta;
        destruct (temp_due cfg p m) eqn:Hd
      | rewrite (sample_load_raise cfg p m tr c f e Hc Hf Hl) ]
    | rewrite (sample_freq_raise cfg p m tr c e Hc Hf) ]
  | rewrite (sample_cpu_raise cfg p m tr e Hc) ].

Section TickProjections.
Variable cfg : Settings.
Variable p : Platform.
Variable w : World.

Lemma sample_timestamps :
  timestamps (fst (exec (sample cfg p) w))
  = deque_append (timestamps (fst w)) (now_strftime p).
Proof.
  destruct w as [m tr]. sample_cases cfg p m tr; try reflexivity.
  unfold after_temp. now destruct (temperature_reading _ _).
Qed.

Lemma sample_cpu_samples :
  cpu_samples (fst (exec (sample cfg p) w))
  = deque_append_opt (cpu_samples (fst w)) (cpu_value p).
Proof.
  destruct w as [m tr]. unfold cpu_value.
  sample_cases cfg p m tr; try reflexivity.
  unfold after_temp. now destruct (temperature_reading _ _).
Qed.

Lemma sample_freq_samples :
  no_raise p ->
  freq_samples (fst (exec (sample cfg p) w))
  = deque_append_opt (freq_samples (fst w)) (freq_value p).
Proof.
  intros ((c0 & H1) & (f0 & H2) & (l0 & H3)).
  destruct w as [m tr]. unfold freq_value.
  sample_cases cfg p m tr; try discriminate; try reflexivity.
  unfold after_temp. now destruct (temperature_reading _ _).
Qed.

Lemma sample_load_samples :
  no_raise p ->
  load_samples (fst (exec (sample cfg p) w))
  = deque_append_opt (load_samples (fst w)) (load_value p).
Proof.
  intros ((c0 & H1) & (f0 & H2) & (l0 & H3)).
  destruct w as [m tr]. unfold load_value.
  sample_cases cfg p m tr; try discriminate; try reflexivity.
  unfold after_temp. now destruct (temperature_reading _ _).
Qed.

Lemma sample_session :
  let m' := fst (exec (sample cfg p) w) in
  running m' = running (fst w)
  /\ _sensor_key m' = _sensor_key (fst w)
  /\ start_time m' = start_time (fst w)
  /\ end_time m' = end_time (fst w).
Proof.
  destruct w as [m tr]. cbv zeta.
  sample_cases cfg p m tr; try (repeat split; reflexivity).
  unfold after_temp. now destruct (temperature_reading _ _).
Qed.

End TickProjections.

(** * Runs of ticks *)
Section Runs.
Variable cfg : Settings.

Lemma ticks_snoc ps p w :
  ticks cfg (ps ++ [p]) w = exec (sample cfg p) (ticks cfg ps w).
Proof. unfold ticks. now rewrite fold_left_app. Qed.

Lemma history_snoc {A : Type} (val : Platform -> option A) ps p :
  history val (ps ++ [p])
  = history val ps ++ match val p with Some x => [x] | None => [] end.
Proof.
  unfold history. rewrite flat_map_app. cbn [flat_map]. now rewrite app_nil_r.
Qed.

Lemma history_total {A : Type} (f : Platform -> A) ps :
  history (fun p => Some (f p)) ps = map f ps.
Proof.
  unfold history. induction ps as [| p ps IH]; [reflexivity |].
  cbn [flat_map map app]. now rewrite IH.
Qed.

Lemma length_history_le {A : Type} (val : Platform -> option A) ps :
  (length (history val ps) <= length ps)%nat.
Proof.
  induction ps as [| p ps IH]; [cbn; lia |].
  unfold history in *. cbn [flat_map length]. rewrite length_app.
  destruct (val p); cbn [length]; lia.
Qed.

Lemma length_history_all {A : Type} (val : Platform -> option A) ps :
  Forall (fun p => exists x, val p = Some x) ps ->
  length (history val ps) = length ps.
Proof.
  induction 1 as [| p ps (x & Hx) _ IH]; [reflexivity |].
  unfold history in *. cbn [flat_map length]. rewrite Hx, length_app, IH.
  reflexivity.
Qed.

(** A window fed by [sample] with at most one value per tick shows the last
    [maxlen] values of what it was fed. *)
Section Window.
Context {A : Type}.
Variable proj : CPUMonitor -> deque A.
Variable val : Platform -> option A.
Variable good : Platform -> Prop.
Hypothesis step : forall p w,
  good p ->
  proj (fst (exec (sample cfg p) w)) = deque_append_opt (proj (fst w)) (val p).

Lemma ticks_window ps w :
  Forall good ps ->
  (deque_len (proj (fst w)) <= maxlen (proj (fst w)))%nat ->
  let d := proj (fst (ticks cfg ps w)) in
  maxlen d = maxlen (proj (fst w))
  /\ items d = lastn (maxlen (proj (fst w))) (items (proj (fst w)) ++ history val ps).
Proof.
  intros Hg Hlen. cbv zeta. induction ps as [| p ps IH] using rev_ind.
  - cbn. rewrite app_nil_r. split; [reflexivity |].
    symmetry. now apply lastn_all.
  - apply Forall_app in Hg as [Hg Hp]. inversion_clear Hp as [| ? ? Hp' _].
    destruct (IH Hg) as [IHm IHi].
    rewrite ticks_snoc, (step _ _ Hp'), history_snoc.
    destruct (val p) as [x |]; cbn [deque_append_opt].
    + split; [now rewrite deque_append_maxlen |].
      rewrite app_assoc, <- IHm. apply deque_append_lastn. now rewrite IHm.
    + rewrite app_nil_r. now split.
Qed.

End Window.
End Runs.

(** * Construction *)
Lemma CPUMonitor_init_spec cfg now m0 :
  CPUMonitor_init cfg now = Ok m0 ->
  exists c ct,
    window_maxlen (window_duration_sec cfg) (sample_interval_sec cfg) = Ok c
    /\ window_maxlen (window_duration_sec cfg) (temp_sample_interval_sec cfg) = Ok ct
    /\ m0 = mkCPUMonitor (deque_new c) (deque_new ct) (deque_new c) (deque_new c)
              0 true None (Some now) None (deque_new c).
Proof.
  unfold CPUMonitor_init.
  destruct (window_maxlen _ (sample_interval_sec cfg)) as [c | e]; [| discriminate].
  destruct (window_maxlen _ (temp_sample_interval_sec cfg)) as [ct | e];
    [| discriminate].
  intros [= <-]. now exists c, ct.
Qed.

Lemma CPUMonitor_init_SETTINGS : CPUMonitor_init SETTINGS 0 = Ok fresh_monitor.
Proof. vm_compute. reflexivity. Qed.

Lemma CPUMonitor_init_small : CPUMonitor_init small_settings 0 = Ok small_monitor.
Proof. vm_compute. reflexivity. Qed.

Lemma lastn_min {A : Type} n (l : list A) :
  lastn (Nat.min (length l) n) l = lastn n l.
Proof. unfold lastn. f_equal. lia. Qed.

(** The CPU window of a run that starts at construction. *)
Lemma fresh_run_cpu_window cfg now m0 ps :
  CPUMonitor_init cfg now = Ok m0 ->
  maxlen (cpu_samples (fst (ticks cfg ps (m0, [])))) = maxlen (cpu_samples m0)
  /\ items (cpu_samples (fst (ticks cfg ps (m0, []))))
     = lastn (maxlen (cpu_samples m0)) (cpu_reads ps).
Proof.
  intros Hinit.
  destruct (CPUMonitor_init_spec _ _ _ Hinit) as (c & ct & _ & _ & ->).
  cbn [cpu_samples deque_new maxlen].
  pose proof (ticks_window cfg cpu_samples cpu_value (fun _ => True)
                (fun p w _ => sample_cpu_samples cfg p w) ps
                (mkCPUMonitor (deque_new c) (deque_new ct) (deque_new c)
                   (deque_new c) 0 true None (Some now) None (deque_new c), [])) as H.
  cbn [fst cpu_samples deque_new maxlen items app deque_len length] in H.
  apply H; [now apply Forall_forall | lia].
Qed.

(** * The claims *)

(** C1. After any run of ticks from construction, the CPU window keeps its
    capacity [C = int(window_duration_sec / sample_interval_sec)] and holds
    exactly the last [min(L, C)] of the [L] successful CPU-percent reads, in
    the order they were read; when [L > C] the [L - C] oldest are gone; the
    length never exceeds [C]. *)
Theorem cpu_window_holds_last_reads cfg now m0 ps :
  CPUMonitor_init cfg now = Ok m0 ->
  let m := fst (ticks cfg ps (m0, [])) in
  let reads := cpu_reads ps in
  let L := length reads in
  let C := maxlen (cpu_samples m0) in
  window_maxlen (window_duration_sec cfg) (sample_interval_sec cfg) = Ok C
  /\ maxlen (cpu_samples m) = C
  /\ items (cpu_samples m) = lastn (Nat.min L C) reads
  /\ ((C < L)%nat -> items (cpu_samples m) = skipn (L - C) reads)
  /\ (deque_len (cpu_samples m) <= C)%nat.
Proof.
  intros Hinit. cbv zeta.
  destruct (CPUMonitor_init_spec _ _ _ Hinit) as (c & ct & Hc & _ & ->).
  cbn [cpu_samples deque_new maxlen].
  pose proof (ticks_window cfg cpu_samples cpu_value (fun _ => True)
                (fun p w _ => sample_cpu_samples cfg p w) ps
                (mkCPUMonitor (deque_new c) (deque_new ct) (deque_new c)
                   (deque_new c) 0 true None (Some now) None (deque_new c), [])) as H.
  cbn [fst cpu_samples deque_new maxlen items app deque_len length] in H.
  destruct H as [Hm Hi]; [now apply Forall_forall | lia |].
  fold (cpu_reads ps) in Hi.
  repeat split.
  - exact Hc.
  - exact Hm.
  - now rewrite lastn_min.
  - intros _. exact Hi.
  - unfold deque_len. rewrite Hi, length_lastn. lia.
Qed.

Lemma cpu_window_holds_last_reads_witness :
  CPUMonitor_init small_settings 0 = Ok small_monitor
  /\ items (cpu_samples
              (fst (ticks small_settings
                      [tick_ok 10 1; tick_ok 20 2; tick_cpu_fails 3;
                       tick_ok 30 4; tick_ok 40 5]
                      (small_monitor, []))))
     = [20; 30; 40]%Q.
Proof.
  assert (Hinit : CPUMonitor_init small_settings 0 = Ok small_monitor)
    by (vm_compute; reflexivity).
  split; [exact Hinit |].
  destruct (cpu_window_holds_last_reads small_settings 0 small_monitor
              [tick_ok 10 1; tick_ok 20 2; tick_cpu_fails 3;
               tick_ok 30 4; tick_ok 40 5] Hinit)
    as (_ & _ & H & _).
  exact H.
Defined.




(** C10. In a tick where no base-cadence read raises, each of the
    timestamp, CPU, frequency and load windows takes one [append], the
    frequency window taking [0.0] for an absent reading; so after any run
    of such ticks from construction the four windows all have length
    [min(ticks, C)]. *)
Theorem base_windows_stay_aligned cfg now m0 ps :
  CPUMonitor_init cfg now = Ok m0 ->
  Forall no_raise ps ->
  let m := fst (ticks cfg ps (m0, [])) in
  let C := maxlen (cpu_samples m0) in
  let n := Nat.min (length ps) C in
  (deque_len (timestamps m) = n
   /\ deque_len (cpu_samples m) = n
   /\ deque_len (freq_samples m) = n
   /\ deque_len (load_samples m) = n)
  /\ (forall p w c f l,
        cpu_percent p = Ok c -> cpu_freq p = Ok f -> getloadavg p = Ok l ->
        let m' := fst (exec (sample cfg p) w) in
        timestamps m' = deque_append (timestamps (fst w)) (now_strftime p)
        /\ cpu_samples m' = deque_append (cpu_samples (fst w)) c
        /\ freq_samples m'
           = deque_append (freq_samples (fst w))
               (match f with Some fr => freq_current fr | None => 0%Q end)
        /\ load_samples m' = deque_append (load_samples (fst w)) l).
Proof.
  intros Hinit Hok. cbv zeta. split.
  - destruct (CPUMonitor_init_spec _ _ _ Hinit) as (c & ct & _ & _ & ->).
    cbn [cpu_samples deque_new maxlen] in *.
    set (w0 := (mkCPUMonitor (deque_new c) (deque_new ct) (deque_new c)
                  (deque_new c) 0 true None (Some now) None (deque_new c),
                @nil Event)) in *.
    pose proof (ticks_window cfg timestamps (fun p => Some (now_strftime p))
                  no_raise (fun p w _ => sample_timestamps cfg p w) ps w0 Hok)
      as Ht.
    pose proof (ticks_window cfg cpu_samples cpu_value no_raise
                  (fun p w _ => sample_cpu_samples cfg p w) ps w0 Hok) as Hc.
    pose proof (ticks_window cfg freq_samples freq_value no_raise
                  (sample_freq_samples cfg) ps w0 Hok) as Hf.
    pose proof (ticks_window cfg load_samples load_value no_raise
                  (sample_load_samples cfg) ps w0 Hok) as Hl.
    cbn [w0 fst timestamps cpu_samples freq_samples load_samples deque_new maxlen
           items app deque_len length] in Ht, Hc, Hf, Hl.
    destruct Ht as [_ Ht]; [lia |]. destruct Hc as [_ Hc]; [lia |].
    destruct Hf as [_ Hf]; [lia |]. destruct Hl as [_ Hl]; [lia |].
    repeat split.
    + unfold deque_len.
      now rewrite Ht, length_lastn, history_total, length_map.
    + unfold deque_len. rewrite Hc, length_lastn, length_history_all; [reflexivity |].
      eapply Forall_impl; [| exact Hok].
      intros p ((x & H) & _). unfold cpu_value. rewrite H. eauto.
    + unfold deque_len. rewrite Hf, length_lastn, length_history_all; [reflexivity |].
      eapply Forall_impl; [| exact Hok].
      intros p (_ & (f & H) & _). unfold freq_value. rewrite H. eauto.
    + unfold deque_len. rewrite Hl, length_lastn, length_history_all; [reflexivity |].
      eapply Forall_impl; [| exact Hok].
      intros p (_ & _ & (l & H)). unfold load_value. rewrite H. eauto.
  - intros p w c f l Hc Hf Hl.
    assert (Hnr : no_raise p) by (repeat split; eauto).
    rewrite sample_timestamps, sample_cpu_samples,
      (sample_freq_samples _ _ _ Hnr), (sample_load_samples _ _ _ Hnr).
    unfold cpu_value, freq_value, load_value. rewrite Hc, Hf, Hl.
    repeat split; reflexivity.
Qed.

Lemma base_windows_stay_aligned_witness :
  CPUMonitor_init small_settings 0 = Ok small_monitor
  /\ Forall no_raise [tick_ok 10 1; tick_no_freq 20 2]
  /\ let m := fst (ticks small_settings [tick_ok 10 1; tick_no_freq 20 2]
                     (small_monitor, [])) in
     deque_len (timestamps m) = 2%nat
     /\ deque_len (cpu_samples m) = 2%nat
     /\ deque_len (freq_samples m) = 2%nat
     /\ deque_len (load_samples m) = 2%nat.
Proof.
  assert (Hinit : CPUMonitor_init small_settings 0 = Ok small_monitor)
    by (vm_compute; reflexivity).
  assert (Hok : Forall no_raise [tick_ok 10 1; tick_no_freq 20 2]).
  { repeat constructor; cbn; eauto. }
  split; [exact Hinit |]. split; [exact Hok |].
  exact (proj1 (base_windows_stay_aligned small_settings 0 small_monitor
                  [tick_ok 10 1; tick_no_freq 20 2] Hinit Hok)).
Defined.

(** C2, as the code has it.  The timestamp capture and the CPU-percent,
    frequency and load reads of a tick share one [try] block, in that
    order: when one of these three reads raises, the tick ends there.  The
    windows of the reads made before it keep the sample just appended, the
    failed metric and every later one, temperature included, get no sample
    for that tick, the error is logged, and the monitor keeps running.  A
    raising temperature read is different: [_read_temperature] swallows it,
    so it blocks nothing and logs nothing; the three base windows have their
    sample, only the temperature window lacks one, and the last temperature
    time is still updated when the read was due. *)
Theorem failed_read_ends_the_tick cfg p m tr :
  let w' := exec (sample cfg p) (m, tr) in
  let m' := fst w' in
  timestamps m' = deque_append (timestamps m) (now_strftime p)
  /\ running m' = running m
  /\ (forall e, cpu_percent p = Raise e ->
        cpu_samples m' = cpu_samples m
        /\ freq_samples m' = freq_samples m
        /\ load_samples m' = load_samples m
        /\ temp_samples m' = temp_samples m
        /\ _last_temp_time m' = _last_temp_time m
        /\ snd w' = tr ++ [CallDatetimeNow; CallCpuPercent; error_line e])
  /\ (forall c e, cpu_percent p = Ok c -> cpu_freq p = Raise e ->
        cpu_samples m' = deque_append (cpu_samples m) c
        /\ freq_samples m' = freq_samples m
        /\ load_samples m' = load_samples m
        /\ temp_samples m' = temp_samples m
        /\ _last_temp_time m' = _last_temp_time m
        /\ snd w' = tr ++ [CallDatetimeNow; CallCpuPercent; CallCpuFreq;
                           error_line e])
  /\ (forall c f e, cpu_percent p = Ok c -> cpu_freq p = Ok f ->
        getloadavg p = Raise e ->
        cpu_samples m' = deque_append (cpu_samples m) c
        /\ freq_samples m' = deque_append (freq_samples m) (freq_or_sentinel f)
        /\ load_samples m' = load_samples m
        /\ temp_samples m' = temp_samples m
        /\ _last_temp_time m' = _last_temp_time m
        /\ snd w' = tr ++ [CallDatetimeNow; CallCpuPercent; CallCpuFreq;
                           CallGetloadavg; error_line e])
  /\ (forall c f l e, cpu_percent p = Ok c -> cpu_freq p = Ok f ->
        getloadavg p = Ok l -> sensors_temperatures p = Raise e ->
        cpu_samples m' = deque_append (cpu_samples m) c
        /\ freq_samples m' = deque_append (freq_samples m) (freq_or_sentinel f)
        /\ load_samples m' = deque_append (load_samples m) l
        /\ temp_samples m' = temp_samples m
        /\ _last_temp_time m'
           = (if temp_due cfg p m then time_time p else _last_temp_time m)
        /\ snd w' = tr ++ [CallDatetimeNow; CallCpuPercent; CallCpuFreq;
                           CallGetloadavg; CallTimeTime]
                       ++ (if temp_due cfg p m then [CallSensorsTemperatures]
                           else [])).
Proof.
  cbv zeta. split; [apply (sample_timestamps cfg p (m, tr)) |].
  split; [apply (sample_session cfg p (m, tr)) |].
  split; [| split; [| split]].
  - intros e H. rewrite (sample_cpu_raise cfg p m tr e H). now repeat split.
  - intros c e H1 H2. rewrite (sample_freq_raise cfg p m tr c e H1 H2).
    now repeat split.
  - intros c f e H1 H2 H3. rewrite (sample_load_raise cfg p m tr c f e H1 H2 H3).
    now repeat split.
  - intros c f l e H1 H2 H3 H4. rewrite (sample_ok cfg p m tr c f l H1 H2 H3).
    cbv zeta. destruct (temp_due cfg p m).
    + unfold after_temp, temperature_reading. rewrite H4. now repeat split.
    + rewrite app_nil_r. now repeat split.
Qed.

Lemma failed_read_ends_the_tick_witness :
  cpu_percent (tick_cpu_fails 100) = Raise "cpu_percent unavailable"
  /\ sensors_temperatures (tick_sensors_fail 100) = Raise "sensors unavailable"
  /\ (let w' := exec (sample SETTINGS (tick_cpu_fails 100)) (fresh_monitor, []) in
      freq_samples (fst w') = freq_samples fresh_monitor
      /\ load_samples (fst w') = load_samples fresh_monitor
      /\ snd w' = [CallDatetimeNow; CallCpuPercent;
                   error_line "cpu_percent unavailable"])
  /\ (let w' := exec (sample SETTINGS (tick_sensors_fail 100)) (fresh_monitor, []) in
      cpu_samples (fst w') = deque_append (cpu_samples fresh_monitor) 10%Q
      /\ temp_samples (fst w') = temp_samples fresh_monitor
      /\ _last_temp_time (fst w') = 100%Q
      /\ snd w' = [CallDatetimeNow; CallCpuPercent; CallCpuFreq; CallGetloadavg;
                   CallTimeTime; CallSensorsTemperatures]).
Proof.
  split; [reflexivity |]. split; [reflexivity |]. split.
  - destruct (failed_read_ends_the_tick SETTINGS (tick_cpu_fails 100)
                fresh_monitor [])
      as (_ & _ & H & _).
    destruct (H "cpu_percent unavailable"%string eq_refl)
      as (_ & Hf & Hl & _ & _ & Htr).
    repeat split; assumption.
  - destruct (failed_read_ends_the_tick SETTINGS (tick_sensors_fail 100)
                fresh_monitor [])
      as (_ & _ & _ & _ & _ & H).
    destruct (H 10%Q (Some (mkScpufreq 2400 800 3600)) (1 # 2, 3 # 4, 1)%Q
                "sensors unavailable"%string eq_refl eq_refl eq_refl eq_refl)
      as (Hc & _ & _ & Ht & Hlast & Htr).
    repeat split; assumption.
Defined.

(** C2 as stated fails: when the CPU-percent read raises, the frequency
    and load reads that would have succeeded are never made, and the
    temperature read that was due is skipped. *)
Lemma cpu_failure_blocks_other_metrics :
  let p := tick_cpu_fails 100 in
  let w' := exec (sample SETTINGS p) (fresh_monitor, []) in
  (exists e, cpu_percent p = Raise e)
  /\ (exists f, cpu_freq p = Ok f)
  /\ (exists l, getloadavg p = Ok l)
  /\ temp_due SETTINGS p fresh_monitor = true
  /\ items (freq_samples (fst w')) = []
  /\ items (load_samples (fst w')) = []
  /\ items (temp_samples (fst w')) = []
  /\ ~ In CallCpuFreq (snd w')
  /\ ~ In CallGetloadavg (snd w')
  /\ ~ In CallSensorsTemperatures (snd w').
Proof.
  cbv zeta. repeat split; try (vm_compute; reflexivity); try (cbn; eauto; fail).
  all: vm_compute; intros H; repeat (destruct H as [H | H]; [discriminate |]);
    exact H.
Qed.

(** C6, as the code has it.  In a tick whose CPU-percent, frequency and
    load reads do not raise, the temperature is read iff the float
    difference between [time.time()] and the last temperature time is at
    least the temperature interval; the reading is appended only when it is
    not [None], and the last temperature time is set to the tick's time
    whether or not a reading came back.  When the read is not due, the
    temperature window and the last temperature time are left alone. *)
Theorem temperature_read_when_due cfg p m tr :
  no_raise p ->
  let w' := exec (sample cfg p) (m, tr) in
  let m' := fst w' in
  let elapsed := Float.fsub (time_time p) (_last_temp_time m) in
  exists evs,
    snd w' = tr ++ evs
    /\ (In CallSensorsTemperatures evs
        <-> (temp_sample_interval_sec cfg <= elapsed)%Q)
    /\ ((temp_sample_interval_sec cfg <= elapsed)%Q ->
        fst (_read_temperature p (m, tr)) = Ok (temperature_reading p (_sensor_key m))
        /\ temp_samples m'
           = match temperature_reading p (_sensor_key m) with
             | Some t => deque_append (temp_samples m) t
             | None => temp_samples m
             end
        /\ _last_temp_time m' = time_time p)
    /\ (~ (temp_sample_interval_sec cfg <= elapsed)%Q ->
        temp_samples m' = temp_samples m
        /\ _last_temp_time m' = _last_temp_time m).
Proof.
  intros ((c & Hc) & (f & Hf) & (l & Hl)). cbv zeta.
  rewrite (sample_ok cfg p m tr c f l Hc Hf Hl). cbv zeta.
  unfold temp_due. rewrite _read_temperature_spec. cbn [fst].
  destruct (Qle_bool _ _) eqn:Hd.
  - apply Qle_bool_iff in Hd.
    eexists. split; [reflexivity |]. split; [| split].
    + split; [intros _; exact Hd | intros _; cbn; tauto].
    + intros _. split; [reflexivity |]. unfold after_temp.
      cbn [_sensor_key after_load after_freq after_cpu after_now set_load_samples
             set_freq_samples set_cpu_samples set_timestamps].
      now destruct (temperature_reading p (_sensor_key m)).
    + intros Hn. now destruct Hn.
  - assert (Hn : ~ (temp_sample_interval_sec cfg
                    <= Float.fsub (time_time p) (_last_temp_time m))%Q).
    { intros H. apply Qle_bool_iff in H. congruence. }
    eexists. split; [reflexivity |]. split; [| split].
    + split; [| intros H; now destruct Hn].
      cbn. intros H. repeat (destruct H as [H | H]; [discriminate |]). destruct H.
    + intros H. now destruct Hn.
    + intros _. now split.
Qed.

Lemma temperature_read_when_due_witness :
  no_raise (tick_ok 10 100)
  /\ exists evs,
       snd (exec (sample SETTINGS (tick_ok 10 100)) (fresh_monitor, [])) = [] ++ evs
       /\ (In CallSensorsTemperatures evs
           <-> (temp_sample_interval_sec SETTINGS
                <= Float.fsub (time_time (tick_ok 10 100))
                     (_last_temp_time fresh_monitor))%Q).
Proof.
  assert (Hok : no_raise (tick_ok 10 100)) by (repeat split; cbn; eauto).
  split; [exact Hok |].
  destruct (temperature_read_when_due SETTINGS (tick_ok 10 100) fresh_monitor []
              Hok) as (evs & Htr & Hin & _).
  exists evs. split; [exact Htr | exact Hin].
Defined.

(** C6 as stated fails: in a tick whose CPU-percent read raises, the
    temperature interval has elapsed and yet no temperature read is made
    and the last temperature time is not updated. *)
Lemma due_temperature_read_skipped_after_failed_read :
  let p := tick_cpu_fails 100 in
  let w' := exec (sample SETTINGS p) (fresh_monitor, []) in
  (temp_sample_interval_sec SETTINGS
   <= Float.fsub (time_time p) (_last_temp_time fresh_monitor))%Q
  /\ ~ In CallSensorsTemperatures (snd w')
  /\ _last_temp_time (fst w') = _last_temp_time fresh_monitor
  /\ ~ (_last_temp_time (fst w') == time_time p)%Q.
Proof.
  cbv zeta. repeat split.
  - apply Qle_bool_iff. vm_compute. reflexivity.
  - vm_compute. intros H. repeat (destruct H as [H | H]; [discriminate |]). exact H.
  - vm_compute. discriminate.
Qed.

(** * Stopping *)

(** C3, as the code has it.  [stop] has no guard: every call clears the
    running flag and stores the current time as the end time.  After two
    calls the flag is still cleared and the end time is that of the second
    call; the second call leaves the monitor as it was only when the clock
    reads the same.  Sampling never sets the flag again, and [stop] touches
    no window. *)
Theorem stop_records_latest_call m t1 t2 :
  let m1 := stop t1 m in
  let m2 := stop t2 m1 in
  running m1 = false
  /\ end_time m1 = Some t1
  /\ running m2 = false
  /\ end_time m2 = Some t2
  /\ (m2 = m1 <-> t2 = t1)
  /\ (cpu_samples m2 = cpu_samples m
      /\ temp_samples m2 = temp_samples m
      /\ freq_samples m2 = freq_samples m
      /\ load_samples m2 = load_samples m
      /\ timestamps m2 = timestamps m
      /\ start_time m2 = start_time m)
  /\ (forall cfg p tr,
        running (fst (exec (sample cfg p) (m2, tr))) = false
        /\ end_time (fst (exec (sample cfg p) (m2, tr))) = Some t2).
Proof.
  cbv zeta. repeat split; try reflexivity.
  - intros H. apply (f_equal end_time) in H. cbn in H. congruence.
  - intros ->. reflexivity.
  - destruct (sample_session cfg p (stop t2 (stop t1 m), tr)) as (H & _).
    cbv zeta in H. now rewrite H.
  - destruct (sample_session cfg p (stop t2 (stop t1 m), tr)) as (_ & _ & _ & H).
    cbv zeta in H. now rewrite H.
Qed.

Lemma stop_records_latest_call_witness :
  (stop 7 (stop 5 fresh_monitor) = stop 5 fresh_monitor <-> 7 = 5)
  /\ end_time (stop 7 (stop 5 fresh_monitor)) = Some 7.
Proof.
  destruct (stop_records_latest_call fresh_monitor 5 7)
    as (_ & _ & _ & He & Hiff & _).
  split; [exact Hiff | exact He].
Defined.

(** C3 as stated fails: a second call to [stop] replaces the end time the
    first call recorded. *)
Lemma second_stop_overwrites_end_time :
  end_time (stop 5 fresh_monitor) = Some 5
  /\ end_time (stop 7 (stop 5 fresh_monitor)) = Some 7
  /\ end_time (stop 7 (stop 5 fresh_monitor)) <> end_time (stop 5 fresh_monitor).
Proof. repeat split; discriminate. Qed.

(** * The threshold classifier *)

Lemma Qle_bool_false x y : Qle_bool x y = false <-> (y < x)%Q.
Proof.
  split.
  - intros H. apply Qnot_le_lt. intros H'. apply Qle_bool_iff in H'. congruence.
  - intros H. destruct (Qle_bool x y) eqn:E; [| reflexivity].
    apply Qle_bool_iff in E. exfalso. exact (Qlt_not_le _ _ H E).
Qed.

(** Close a goal from two contradictory order facts among the hypotheses. *)
Ltac q_absurd :=
  exfalso;
  match goal with
  | H1 : (?a < ?b)%Q, H2 : (?b <= ?a)%Q |- _ => exact (Qlt_not_le _ _ H1 H2)
  | H1 : (?a < ?b)%Q, H2 : (?b < ?a)%Q |- _ =>
      exact (Qlt_irrefl _ (Qlt_trans _ _ _ H1 H2))
  end.

Lemma colorize_color_cases value warn crit :
  (warn < crit)%Q ->
  ((crit <= value)%Q /\ colorize_color value warn crit = red)
  \/ ((warn <= value)%Q /\ (value < crit)%Q
      /\ colorize_color value warn crit = yellow)
  \/ ((value < warn)%Q /\ colorize_color value warn crit = green).
Proof.
  intros Hwc. unfold colorize_color.
  destruct (Qle_bool crit value) eqn:Ec.
  - left. split; [now apply Qle_bool_iff | reflexivity].
  - apply Qle_bool_false in Ec. right.
    destruct (Qle_bool warn value) eqn:Ew.
    + left. repeat split; [now apply Qle_bool_iff | exact Ec].
    + right. split; [now apply Qle_bool_false | reflexivity].
Qed.

Lemma colorize_color_crit warn crit : colorize_color crit warn crit = red.
Proof.
  unfold colorize_color.
  now replace (Qle_bool crit crit) with true
    by (symmetry; apply Qle_bool_iff, Qle_refl).
Qed.

Lemma colorize_color_warn warn crit :
  (warn < crit)%Q -> colorize_color warn warn crit = yellow.
Proof.
  intros H. unfold colorize_color.
  apply Qle_bool_false in H. rewrite H.
  now replace (Qle_bool warn warn) with true
    by (symmetry; apply Qle_bool_iff, Qle_refl).
Qed.

(** C5. With [warn < crit], [colorize] picks red exactly when
    [value >= crit], yellow exactly when [warn <= value < crit] and green
    exactly when [value < warn]; so [crit] itself is red, [warn] itself is
    yellow, and the markup returned carries that colour around the value
    printed with one decimal. *)
Theorem colorize_bands value warn crit unit :
  (warn < crit)%Q ->
  let c := colorize_color value warn crit in
  (c = red <-> (crit <= value)%Q)
  /\ (c = yellow <-> (warn <= value)%Q /\ (value < crit)%Q)
  /\ (c = green <-> (value < warn)%Q)
  /\ colorize_color crit warn crit = red
  /\ colorize_color warn warn crit = yellow
  /\ colorize value warn crit unit
     = ("[" ++ color_name c ++ "]" ++ format_1f value ++ unit
          ++ "[/" ++ color_name c ++ "]")%string.
Proof.
  intros Hwc. cbv zeta.
  pose proof (colorize_color_crit warn crit) as Hcrit.
  pose proof (colorize_color_warn warn crit Hwc) as Hwarn.
  assert (Hmarkup : colorize value warn crit unit
                    = ("[" ++ color_name (colorize_color value warn crit) ++ "]"
                         ++ format_1f value ++ unit ++ "[/"
                         ++ color_name (colorize_color value warn crit) ++ "]")%string)
    by reflexivity.
  destruct (colorize_color_cases value warn crit Hwc)
    as [[Hc E] | [[Hw [Hc E]] | [Hw E]]]; rewrite E in *.
  - assert (Hwv : (warn < value)%Q) by (eapply Qlt_le_trans; eassumption).
    split; [split; [intros _; exact Hc | reflexivity] |].
    split; [split; [discriminate | intros [_ H]; now q_absurd] |].
    split; [split; [discriminate | intros H; now q_absurd] |].
    auto.
  - split; [split; [discriminate | intros H; now q_absurd] |].
    split; [split; [intros _; now split | reflexivity] |].
    split; [split; [discriminate | intros H; now q_absurd] |].
    auto.
  - assert (Hvc : (value < crit)%Q) by (eapply Qlt_trans; eassumption).
    split; [split; [discriminate | intros H; now q_absurd] |].
    split; [split; [discriminate | intros [H _]; now q_absurd] |].
    split; [split; [intros _; exact Hw | reflexivity] |].
    auto.
Qed.

Lemma colorize_bands_witness :
  (cpu_warn THRESHOLDS < cpu_crit THRESHOLDS)%Q
  /\ colorize_color (cpu_crit THRESHOLDS) (cpu_warn THRESHOLDS) (cpu_crit THRESHOLDS)
     = red
  /\ colorize_color (cpu_warn THRESHOLDS) (cpu_warn THRESHOLDS) (cpu_crit THRESHOLDS)
     = yellow
  /\ (colorize_color 60 (cpu_warn THRESHOLDS) (cpu_crit THRESHOLDS) = green
      <-> (60 < cpu_warn THRESHOLDS)%Q).
Proof.
  assert (H : (cpu_warn THRESHOLDS < cpu_crit THRESHOLDS)%Q) by reflexivity.
  split; [exact H |].
  destruct (colorize_bands 60 (cpu_warn THRESHOLDS) (cpu_crit THRESHOLDS) "%" H)
    as (_ & _ & Hg & Hr & Hy & _).
  split; [exact Hr |]. split; [exact Hy | exact Hg].
Defined.

(** * The window average *)
Lemma to_float_comp x y : (x == y)%Q -> Float.to_float x = Float.to_float y.
Proof. intros H. unfold Float.to_float. now rewrite (Qred_complete _ _ H). Qed.

Lemma fold_left_Qplus_comp l a b :
  (a == b)%Q -> (fold_left Qplus l a == fold_left Qplus l b)%Q.
Proof.
  revert a b. induction l as [| x l IH]; intros a b H; [exact H |].
  cbn [fold_left]. apply IH. now rewrite H.
Qed.

Lemma fold_left_Qplus_perm l l' :
  Permutation l l' ->
  forall a, (fold_left Qplus l a == fold_left Qplus l' a)%Q.
Proof.
  induction 1 as [| x l l' _ IH | x y l | l l' l'' _ IH1 _ IH2]; intros a.
  - reflexivity.
  - cbn [fold_left]. apply IH.
  - cbn [fold_left]. apply fold_left_Qplus_comp. ring.
  - now rewrite IH1, IH2.
Qed.

Lemma mean_perm l l' : Permutation l l' -> mean l = mean l'.
Proof.
  intros H. unfold mean.
  destruct l as [| x l].
  - apply Permutation_nil in H. now subst.
  - destruct l' as [| x' l'].
    + apply Permutation_sym, Permutation_nil in H. discriminate.
    + f_equal. apply to_float_comp. unfold exact_sum.
      rewrite (fold_left_Qplus_perm _ _ H), (Permutation_length H). reflexivity.
Qed.

(** C9. [avg] is [0.0] on the empty window, is [x] on the window [[x]]
    for a float [x], returns a value on every window, and gives the same
    value on any two windows with the same elements in a different
    order. *)
Theorem avg_of_window :
  (forall n, avg (mkDeque n []) = Ok 0%Q)
  /\ (forall n x, Float.is_float x ->
        exists v, avg (mkDeque n [x]) = Ok v /\ (v == x)%Q)
  /\ (forall d, exists v, avg d = Ok v)
  /\ (forall n n' l l', Permutation l l' -> avg (mkDeque n l) = avg (mkDeque n' l')).
Proof.
  repeat split.
  - intros n x Hx. eexists. split; [reflexivity |].
    unfold exact_sum. cbn [fold_left length items].
    rewrite (to_float_comp _ x).
    + now apply FloatFacts.to_float_id.
    + change (inject_Z (Z.of_nat 1)) with 1%Q. field.
  - intros [n l]. unfold avg, mean. cbn [items]. destruct l; eauto.
  - intros n n' l l' H. unfold avg. cbn [items].
    destruct l as [| x l].
    + apply Permutation_nil in H. now subst.
    + destruct l' as [| x' l'].
      * apply Permutation_sym, Permutation_nil in H. discriminate.
      * now apply mean_perm.
Qed.

Lemma avg_of_window_witness :
  Float.is_float (85 # 2)
  /\ Permutation [50; 75; 95; 60]%Q [60; 95; 75; 50]%Q
  /\ (exists v, avg (mkDeque 20 [85 # 2]) = Ok v /\ (v == 85 # 2)%Q)
  /\ avg (mkDeque 4 [50; 75; 95; 60]%Q) = avg (mkDeque 4 [60; 95; 75; 50]%Q).
Proof.
  assert (Hf : Float.is_float (85 # 2)).
  { exists 85, (-1). repeat split; try reflexivity. unfold Float.emin. lia. }
  assert (Hp : Permutation [50; 75; 95; 60]%Q [60; 95; 75; 50]%Q).
  { change [60; 95; 75; 50]%Q with (rev [50; 75; 95; 60]%Q). apply Permutation_rev. }
  split; [exact Hf |]. split; [exact Hp |].
  destruct avg_of_window as (_ & H1 & _ & H2).
  split; [exact (H1 20%nat _ Hf) | exact (H2 4%nat 4%nat _ _ Hp)].
Defined.

Example avg_scenario :
  avg (mkDeque 4 [50; 75; 95; 60]%Q) = Ok 70%Q
  /\ colorize_color 70 (cpu_warn THRESHOLDS) (cpu_crit THRESHOLDS) = yellow.
Proof. split; vm_compute; reflexivity. Qed.

(** * Reading the temperature *)

(** Where [_read_temperature] does what its callers expect: a non-zero
    reading of the first matching entry is returned, a group without a
    matching entry falls back to its first entry, and an empty group, an
    unresolved key or a key missing from the table give [None]. *)
Lemma select_temperature_cases key temps :
  (forall k entries t,
      key = Some k -> k <> ""%string -> table_get k temps = Some entries ->
      find label_matches entries = Some t -> ~ (current t == 0)%Q ->
      select_temperature key temps = Some (current t))
  /\ (forall k entries,
        key = Some k -> k <> ""%string -> table_get k temps = Some entries ->
        find label_matches entries = None ->
        select_temperature key temps = option_map current (hd_error entries))
  /\ (forall k, key = Some k -> table_get k temps = Some [] ->
        select_temperature key temps = None)
  /\ (key = None -> select_temperature key temps = None)
  /\ (forall k, key = Some k -> table_get k temps = None ->
        select_temperature key temps = None).
Proof.
  unfold select_temperature, key_truthy, match_or_first, first_match, truthy.
  repeat split.
  - intros k entries t -> Hk Ht Hf Hz.
    apply String.eqb_neq in Hk. rewrite Hk, Ht, Hf. cbn [option_map].
    destruct (Qeq_bool (current t) 0) eqn:E; [| reflexivity].
    apply Qeq_bool_iff in E. contradiction.
  - intros k entries -> Hk Ht Hf.
    apply String.eqb_neq in Hk. rewrite Hk, Ht, Hf. now destruct entries.
  - intros k -> Ht. destruct (String.eqb k ""); [reflexivity |]. now rewrite Ht.
  - now intros ->.
  - intros k -> Ht. destruct (String.eqb k ""); [reflexivity |]. now rewrite Ht.
Qed.

(** C7 at the input where it breaks: the group has an entry labelled
    "Package id 0" whose current value is 0.0, listed after a "Core 1" entry
    that does not match, and [_read_temperature] returns the first entry's
    45.0 instead of the package reading. *)
Theorem zero_package_reading_falls_back :
  let m := set_sensor_key (Some "coretemp"%string) fresh_monitor in
  sensors_temperatures tick_zero_package
  = Ok [("coretemp"%string, zero_package_entries)]
  /\ find label_matches zero_package_entries
     = Some (mkShwtemp "Package id 0" 0 None None)
  /\ hd_error zero_package_entries = Some (mkShwtemp "Core 1" 45 None None)
  /\ label_matches (mkShwtemp "Core 1" 45 None None) = false
  /\ fst (_read_temperature tick_zero_package (m, [])) = Ok (Some 45%Q).
Proof. cbv zeta. repeat split; vm_compute; reflexivity. Qed.

(** * CSV export *)
Lemma guarded_getitem {A : Type} (d : deque A) (i : nat) (dflt : A) :
  exists s,
    (if (i <? deque_len d)%nat then deque_getitem d i else Ok dflt) = Ok s
    /\ ((deque_len d <= i)%nat -> s = dflt)
    /\ (forall v, nth_error (items d) i = Some v -> s = v).
Proof.
  unfold deque_len, deque_getitem.
  destruct (Nat.ltb_spec i (length (items d))) as [H | H].
  - destruct (nth_error (items d) i) as [v |] eqn:E.
    + exists v. repeat split; [lia | congruence].
    + apply nth_error_None in E. lia.
  - exists dflt. repeat split. intros v Hv.
    apply nth_error_None in H. congruence.
Qed.

Lemma guarded_field {A B : Type} (d : deque A) (i : nat) (f : A -> B) (dflt : B) :
  exists s,
    (if (i <? deque_len d)%nat
     then let? v := deque_getitem d i in Ok (f v)
     else Ok dflt) = Ok s
    /\ ((deque_len d <= i)%nat -> s = dflt)
    /\ (forall v, nth_error (items d) i = Some v -> s = f v).
Proof.
  unfold deque_len, deque_getitem.
  destruct (Nat.ltb_spec i (length (items d))) as [H | H].
  - destruct (nth_error (items d) i) as [v |] eqn:E.
    + exists (f v). repeat split; [lia | congruence].
    + apply nth_error_None in E. lia.
  - exists dflt. repeat split. intros v Hv.
    apply nth_error_None in H. congruence.
Qed.

Lemma rmap_ok {A B : Type} (f : A -> Result B) (l : list A) :
  (forall a, In a l -> exists b, f a = Ok b) ->
  exists bs,
    rmap f l = Ok bs
    /\ length bs = length l
    /\ (forall i a, nth_error l i = Some a ->
          exists b, nth_error bs i = Some b /\ f a = Ok b).
Proof.
  induction l as [| a l IH]; intros H.
  - exists []. repeat split. intros [| i] a Ha; discriminate.
  - destruct (H a (or_introl eq_refl)) as (b & Hb).
    destruct IH as (bs & Hbs & Hlen & Hnth); [intros x Hx; apply H; now right |].
    exists (b :: bs). cbn [rmap]. rewrite Hb. cbn [rbind]. rewrite Hbs. cbn [rbind].
    repeat split; [cbn; now rewrite Hlen |].
    intros [| i] x Hx; cbn in Hx.
    + injection Hx as <-. now exists b.
    + cbn. now apply Hnth.
Qed.

Lemma csv_row_ok m i : exists row, csv_row m i = Ok row /\ row_shape m i row.
Proof.
  unfold csv_row.
  destruct (guarded_getitem (timestamps m) i ""%string) as (ts & -> & Hts0 & Hts).
  destruct (guarded_field (cpu_samples m) i format_1f ""%string)
    as (cpu & -> & _ & Hcpu).
  destruct (guarded_field (temp_samples m) i format_1f "N/A"%string)
    as (temp & -> & Htemp0 & Htemp).
  destruct (guarded_field (freq_samples m) i format_1f ""%string)
    as (freq & -> & Hfreq0 & Hfreq).
  destruct (guarded_field (load_samples m) i
              (fun v => (CellFloat (fst (fst v)), CellFloat (snd (fst v)),
                         CellFloat (snd v)))
              (CellStr "", CellStr "", CellStr ""))
    as (load & -> & Hload0 & Hload).
  cbn [rbind]. eexists. split; [reflexivity |].
  exists ts, cpu, temp, freq, (fst (fst load)), (snd (fst load)), (snd load).
  repeat split; try assumption.
  - now rewrite (Hload0 H).
  - now rewrite (Hload0 H).
  - now rewrite (Hload0 H).
  - now rewrite (Hload _ H).
  - now rewrite (Hload _ H).
  - now rewrite (Hload _ H).
Qed.

(** C4. The export writes the header and then one row per element of the
    CPU window, row [i] (from 0) carrying the index [i + 1] and eight
    cells.  Past the end of the temperature window the temperature cell is
    ["N/A"]; past the end of the frequency, load or timestamp window the
    cells are empty strings; inside a window the cell is the value, printed
    with one decimal for CPU, temperature and frequency. *)
Theorem csv_one_row_per_cpu_sample m :
  exists rows,
    save_data_log_rows m = Ok (csv_header :: rows)
    /\ length rows = deque_len (cpu_samples m)
    /\ (forall i, (i < deque_len (cpu_samples m))%nat ->
          exists row, nth_error rows i = Some row
                      /\ length row = 8%nat
                      /\ row_shape m i row).
Proof.
  unfold save_data_log_rows.
  destruct (rmap_ok (csv_row m) (seq 0 (deque_len (cpu_samples m))))
    as (rows & Hrows & Hlen & Hnth).
  { intros i _. destruct (csv_row_ok m i) as (row & Hrow & _). now exists row. }
  exists rows. rewrite Hrows. cbn [rbind]. split; [reflexivity |].
  split; [now rewrite Hlen, length_seq |].
  intros i Hi.
  destruct (Hnth i i) as (row & Hrow & Hcsv).
  { rewrite nth_error_seq. apply Nat.ltb_lt in Hi. now rewrite Hi. }
  exists row. split; [exact Hrow |].
  destruct (csv_row_ok m i) as (row' & Hrow' & Hshape).
  assert (row' = row) by congruence. subst row'.
  split; [| exact Hshape].
  destruct Hshape as (ts & cpu & temp & freq & l1 & l5 & l15 & -> & _).
  reflexivity.
Qed.

Lemma csv_one_row_per_cpu_sample_witness :
  (2 < deque_len (cpu_samples export_monitor))%nat
  /\ exists rows,
       save_data_log_rows export_monitor = Ok (csv_header :: rows)
       /\ length rows = 5%nat
       /\ exists row, nth_error rows 2 = Some row /\ row_shape export_monitor 2 row.
Proof.
  assert (H : (2 < deque_len (cpu_samples export_monitor))%nat) by (vm_compute; lia).
  split; [exact H |].
  destruct (csv_one_row_per_cpu_sample export_monitor) as (rows & Hs & Hl & Hr).
  exists rows. split; [exact Hs |]. split; [exact Hl |].
  destruct (Hr 2%nat H) as (row & Hn & _ & Hsh).
  exists row. split; [exact Hn | exact Hsh].
Defined.

Example csv_export_scenario :
  save_data_log_rows export_monitor
  = Ok [csv_header;
        [CellInt 1; CellStr "2024-05-01 12:00:00"; CellStr "50.0"; CellStr "55.0";
         CellStr "2400.0"; CellFloat 1; CellFloat 1; CellFloat 1];
        [CellInt 2; CellStr "2024-05-01 12:00:00"; CellStr "75.0"; CellStr "56.0";
         CellStr "2400.0"; CellFloat 1; CellFloat 1; CellFloat 1];
        [CellInt 3; CellStr "2024-05-01 12:00:01"; CellStr "95.0"; CellStr "N/A";
         CellStr "0.0"; CellFloat 2; CellFloat 1; CellFloat 1];
        [CellInt 4; CellStr "2024-05-01 12:00:01"; CellStr "60.0"; CellStr "N/A";
         CellStr "1800.0"; CellFloat 2; CellFloat 1; CellFloat 1];
        [CellInt 5; CellStr "2024-05-01 12:00:02"; CellStr "20.5"; CellStr "N/A";
         CellStr "2400.0"; CellFloat 2; CellFloat 2; CellFloat 1]].
Proof. vm_compute. reflexivity. Qed.

(** * Beyond the claims: the sampler *)

(** X2. A tick only adds events to the log, and it prints an error line exactly
    when the CPU-percent, frequency or load read raises: a failing
    [sensors_temperatures] call is swallowed by [_read_temperature] and
    leaves no trace on the console. *)
Theorem sample_logs_iff_base_read_raises cfg p m tr :
  exists evs,
    snd (exec (sample cfg p) (m, tr)) = tr ++ evs
    /\ ((exists msg, In (ConsoleLog msg) evs) <-> ~ no_raise p)
    /\ (length (filter is_console_log evs) <= 1)%nat.
Proof.
  sample_cases cfg p m tr; cbn [snd]; eexists; (split; [reflexivity |]).
  - split; [| cbn; lia]. split.
    + intros (msg & H). cbn in H.
      repeat (destruct H as [H | H]; [discriminate |]). destruct H.
    + intros H. exfalso. apply H. repeat split; eauto.
  - split; [| cbn; lia]. split.
    + intros (msg & H). cbn in H.
      repeat (destruct H as [H | H]; [discriminate |]). destruct H.
    + intros H. exfalso. apply H. repeat split; eauto.
  - split; [| cbn; lia]. split.
    + intros _ (_ & _ & (l & Hl')). congruence.
    + intros _. eexists. cbn. do 4 right. left. reflexivity.
  - split; [| cbn; lia]. split.
    + intros _ (_ & (f & Hf') & _). congruence.
    + intros _. eexists. cbn. do 3 right. left. reflexivity.
  - split; [| cbn; lia]. split.
    + intros _ ((c & Hc') & _). congruence.
    + intros _. eexists. cbn. do 2 right. left. reflexivity.
Qed.

(** Each window changes in a tick by at most one [append]. *)
Lemma sample_windows_step cfg p w :
  let m := fst w in
  let m' := fst (exec (sample cfg p) w) in
  (exists o, cpu_samples m' = deque_append_opt (cpu_samples m) o)
  /\ (exists o, temp_samples m' = deque_append_opt (temp_samples m) o)
  /\ (exists o, freq_samples m' = deque_append_opt (freq_samples m) o)
  /\ (exists o, load_samples m' = deque_append_opt (load_samples m) o)
  /\ (exists o, timestamps m' = deque_append_opt (timestamps m) o).
Proof.
  destruct w as [m tr]. cbv zeta. cbn [fst].
  sample_cases cfg p m tr; cbn [fst].
  - unfold after_temp.
    cbn [_sensor_key after_load after_freq after_cpu after_now set_load_samples
           set_freq_samples set_cpu_samples set_timestamps].
    destruct (temperature_reading p (_sensor_key m)) as [t |];
      repeat split;
      try (eexists (Some _); reflexivity); exists None; reflexivity.
  - repeat split;
      try (eexists (Some _); reflexivity); exists None; reflexivity.
  - repeat split;
      try (eexists (Some _); reflexivity); exists None; reflexivity.
  - repeat split;
      try (eexists (Some _); reflexivity); exists None; reflexivity.
  - repeat split;
      try (eexists (Some _); reflexivity); exists None; reflexivity.
Qed.

Lemma deque_append_opt_within {A : Type} (d : deque A) o :
  within_capacity d ->
  within_capacity (deque_append_opt d o) /\ maxlen (deque_append_opt d o) = maxlen d.
Proof.
  unfold within_capacity. intros H. destruct o as [x |]; cbn [deque_append_opt].
  - split; [| reflexivity]. rewrite deque_append_maxlen.
    now apply deque_append_len_le.
  - now split.
Qed.

Lemma sample_keeps_windows cfg p w :
  windows_bounded (fst w) ->
  windows_bounded (fst (exec (sample cfg p) w))
  /\ capacities (fst (exec (sample cfg p) w)) = capacities (fst w).
Proof.
  intros (H1 & H2 & H3 & H4 & H5).
  destruct (sample_windows_step cfg p w)
    as ((o1 & E1) & (o2 & E2) & (o3 & E3) & (o4 & E4) & (o5 & E5)).
  unfold windows_bounded, capacities. rewrite E1, E2, E3, E4, E5.
  destruct (deque_append_opt_within _ o1 H1) as [? ->].
  destruct (deque_append_opt_within _ o2 H2) as [? ->].
  destruct (deque_append_opt_within _ o3 H3) as [? ->].
  destruct (deque_append_opt_within _ o4 H4) as [? ->].
  destruct (deque_append_opt_within _ o5 H5) as [? ->].
  repeat split; assumption.
Qed.

(** X3. However the reads of a run turn out, no window ever grows past its
    capacity and no capacity ever changes: the bound that holds at
    construction holds after every tick, for all five windows, and [stop]
    keeps it. *)
Theorem windows_stay_within_capacity cfg ps m tr now :
  windows_bounded m ->
  let m' := fst (ticks cfg ps (m, tr)) in
  windows_bounded m'
  /\ capacities m' = capacities m
  /\ windows_bounded (stop now m')
  /\ capacities (stop now m') = capacities m.
Proof.
  intros H. cbv zeta.
  assert (G : windows_bounded (fst (ticks cfg ps (m, tr)))
              /\ capacities (fst (ticks cfg ps (m, tr))) = capacities m).
  { induction ps as [| p ps IH] using rev_ind.
    - now split.
    - destruct IH as [IHb IHc]. rewrite ticks_snoc.
      destruct (sample_keeps_windows cfg p (ticks cfg ps (m, tr)) IHb) as [Hb Hc].
      split; [exact Hb | now rewrite Hc]. }
  destruct G as [Gb Gc]. repeat split; try apply Gb; exact Gc.
Qed.

Lemma windows_stay_within_capacity_witness :
  windows_bounded export_monitor
  /\ windows_bounded
       (fst (ticks SETTINGS [tick_ok 10 100; tick_cpu_fails 101]
               (export_monitor, [])))
  /\ capacities
       (fst (ticks SETTINGS [tick_ok 10 100; tick_cpu_fails 101]
               (export_monitor, [])))
     = [20; 5; 20; 20; 20]%nat.
Proof.
  assert (H : windows_bounded export_monitor).
  { unfold windows_bounded, within_capacity. vm_compute. repeat split; lia. }
  split; [exact H |].
  destruct (windows_stay_within_capacity SETTINGS
              [tick_ok 10 100; tick_cpu_fails 101] export_monitor [] 0 H)
    as (Hb & Hc & _).
  split; [exact Hb | exact Hc].
Defined.

Lemma CPUMonitor_init_bounded cfg now m0 :
  CPUMonitor_init cfg now = Ok m0 -> windows_bounded m0.
Proof.
  intros H. destruct (CPUMonitor_init_spec _ _ _ H) as (c & ct & _ & _ & ->).
  unfold windows_bounded, within_capacity, deque_len. cbn. repeat split; lia.
Qed.

(** * Beyond the claims: temperature and the sensor key *)
Lemma no_key_no_reading p k :
  key_truthy k = None -> temperature_reading p k = None.
Proof.
  intros H. unfold temperature_reading, select_temperature. rewrite H.
  now destruct (sensors_temperatures p).
Qed.

Lemma sample_without_key cfg p w :
  key_truthy (_sensor_key (fst w)) = None ->
  temp_samples (fst (exec (sample cfg p) w)) = temp_samples (fst w)
  /\ _sensor_key (fst (exec (sample cfg p) w)) = _sensor_key (fst w).
Proof.
  intros H. split; [| apply sample_session].
  destruct w as [m tr]. cbn [fst] in H.
  sample_cases cfg p m tr; try reflexivity.
  unfold after_temp.
  cbn [_sensor_key after_load after_freq after_cpu after_now set_load_samples
         set_freq_samples set_cpu_samples set_timestamps].
  now rewrite (no_key_no_reading p _ H).
Qed.

Lemma save_data_log_rows_spec m :
  exists rows,
    save_data_log_rows m = Ok (csv_header :: rows)
    /\ length rows = deque_len (cpu_samples m)
    /\ (forall i row, nth_error rows i = Some row -> csv_row m i = Ok row).
Proof.
  unfold save_data_log_rows.
  destruct (rmap_ok (csv_row m) (seq 0 (deque_len (cpu_samples m))))
    as (rows & Hrows & Hlen & Hnth).
  { intros i _. destruct (csv_row_ok m i) as (row & Hrow & _). now exists row. }
  exists rows. rewrite Hrows. cbn [rbind]. split; [reflexivity |].
  rewrite length_seq in Hlen. split; [exact Hlen |].
  intros i row Hi.
  assert (Hlt : (i < deque_len (cpu_samples m))%nat).
  { rewrite <- Hlen. apply nth_error_Some. congruence. }
  destruct (Hnth i i) as (row' & Hrow' & Hcsv).
  { rewrite nth_error_seq. apply Nat.ltb_lt in Hlt. now rewrite Hlt. }
  congruence.
Qed.

(** X4. A monitor whose sensor key is unresolved never records a temperature:
    its temperature window stays as it was through any run of ticks, and if
    it was empty the export of the final state carries ["N/A"] in the
    temperature column of every data row. *)
Theorem no_sensor_key_means_no_temperature cfg ps m tr :
  key_truthy (_sensor_key m) = None ->
  let m' := fst (ticks cfg ps (m, tr)) in
  temp_samples m' = temp_samples m
  /\ (items (temp_samples m) = [] ->
      exists rows,
        save_data_log_rows m' = Ok (csv_header :: rows)
        /\ length rows = deque_len (cpu_samples m')
        /\ Forall (fun row => nth_error row 3 = Some (CellStr "N/A")) rows).
Proof.
  intros Hk. cbv zeta.
  assert (G : temp_samples (fst (ticks cfg ps (m, tr))) = temp_samples m
              /\ _sensor_key (fst (ticks cfg ps (m, tr))) = _sensor_key m).
  { induction ps as [| p ps IH] using rev_ind; [now split |].
    destruct IH as [IHt IHk]. rewrite ticks_snoc.
    destruct (sample_without_key cfg p (ticks cfg ps (m, tr))) as [Ht Hk'].
    - now rewrite IHk.
    - split; congruence. }
  destruct G as [Gt _]. split; [exact Gt |]. intros He.
  destruct (save_data_log_rows_spec (fst (ticks cfg ps (m, tr))))
    as (rows & Hs & Hl & Hr).
  exists rows. split; [exact Hs |]. split; [exact Hl |].
  apply Forall_forall. intros row Hin.
  destruct (In_nth_error _ _ Hin) as (i & Hi).
  pose proof (Hr i row Hi) as Hrow.
  destruct (csv_row_ok (fst (ticks cfg ps (m, tr))) i) as (row' & Hrow' & Hsh).
  assert (row' = row) by congruence. subst row'.
  destruct Hsh as (ts & cpu & temp & freq & l1 & l5 & l15 & -> & _ & _ & _ & Hna & _).
  cbn. rewrite Hna; [reflexivity |].
  unfold deque_len. rewrite Gt, He. cbn. lia.
Qed.

Lemma no_sensor_key_means_no_temperature_witness :
  key_truthy (_sensor_key export_monitor) <> None
  /\ key_truthy (_sensor_key (set_sensor_key None export_monitor)) = None
  /\ temp_samples (fst (ticks SETTINGS [tick_ok 10 100; tick_ok 20 103]
                          (set_sensor_key None export_monitor, [])))
     = mkDeque 5 [55; 56]%Q
  /\ (items (temp_samples fresh_monitor) = [] ->
      exists rows,
        save_data_log_rows
          (fst (ticks SETTINGS [tick_ok 10 100; tick_ok 20 103] (fresh_monitor, [])))
        = Ok (csv_header :: rows)
        /\ Forall (fun row => nth_error row 3 = Some (CellStr "N/A")) rows).
Proof.
  split; [discriminate |]. split; [reflexivity |]. split.
  - exact (proj1 (no_sensor_key_means_no_temperature SETTINGS
                    [tick_ok 10 100; tick_ok 20 103]
                    (set_sensor_key None export_monitor) [] eq_refl)).
  - intros He.
    destruct (proj2 (no_sensor_key_means_no_temperature SETTINGS
                       [tick_ok 10 100; tick_ok 20 103] fresh_monitor []
                       eq_refl) He) as (rows & Hs & _ & Hna).
    exists rows. split; [exact Hs | exact Hna].
Defined.

(** X5. A temperature that [_read_temperature] selects is always the current
    value of an entry of the resolved key's group, either the first entry
    whose label matches or the first entry of the group; and nothing is
    selected exactly when the key is unset or empty, the key is not in the
    table, or its group is empty. *)
Theorem temperature_comes_from_resolved_group key temps :
  (forall v, select_temperature key temps = Some v ->
     exists k entries t,
       key = Some k /\ k <> ""%string /\ table_get k temps = Some entries
       /\ In t entries /\ current t = v
       /\ (find label_matches entries = Some t \/ hd_error entries = Some t))
  /\ (select_temperature key temps = None
      <-> key_truthy key = None
          \/ exists k, key_truthy key = Some k
                       /\ (table_get k temps = None \/ table_get k temps = Some [])).
Proof.
  unfold select_temperature. split.
  - intros v H. destruct key as [k |]; cbn [key_truthy] in H; [| discriminate].
    destruct (String.eqb_spec k "") as [-> | Hk]; [discriminate |].
    destruct (table_get k temps) as [entries |] eqn:Ht; [| discriminate].
    exists k, entries. unfold match_or_first, first_match in H.
    destruct (find label_matches entries) as [t |] eqn:Hf; cbn [option_map truthy] in H.
    + destruct (negb (Qeq_bool (current t) 0)).
      * injection H as <-. exists t.
        pose proof (find_some _ _ Hf) as [Hin _]. repeat split; auto.
      * destruct entries as [| t0 rest]; [discriminate |]. injection H as <-.
        exists t0. repeat split; auto. now left.
    + destruct entries as [| t0 rest]; [discriminate |]. injection H as <-.
      exists t0. repeat split; auto. now left.
  - destruct (key_truthy key) as [k |] eqn:Hk.
    + destruct (table_get k temps) as [entries |] eqn:Ht.
      * unfold match_or_first, first_match. split.
        -- intros H. right. exists k. split; [reflexivity |]. right.
           destruct entries as [| t0 rest]; [exact Ht |]. exfalso.
           destruct (find label_matches (t0 :: rest)) as [t |];
             cbn [option_map truthy] in H;
             [destruct (negb (Qeq_bool (current t) 0)) |]; discriminate.
        -- intros [H | (k' & Hk' & [H | H])]; [discriminate | |];
             injection Hk' as <-; rewrite Ht in H;
             [discriminate | injection H as ->; reflexivity].
      * split; [| reflexivity]. intros _. right. exists k. split; auto.
    + split; [now left | reflexivity].
Qed.

Lemma temperature_comes_from_resolved_group_witness :
  select_temperature (Some "coretemp"%string) coretemp_table = Some 55%Q
  /\ exists k entries t,
       Some "coretemp"%string = Some k /\ k <> ""%string
       /\ table_get k coretemp_table = Some entries
       /\ In t entries /\ current t = 55%Q
       /\ (find label_matches entries = Some t \/ hd_error entries = Some t).
Proof.
  assert (H : select_temperature (Some "coretemp"%string) coretemp_table = Some 55%Q)
    by (vm_compute; reflexivity).
  split; [exact H |].
  exact (proj1 (temperature_comes_from_resolved_group _ _) _ H).
Defined.

Lemma find_first {A : Type} (f : A -> bool) (l : list A) :
  match find f l with
  | Some x => exists before after,
                l = before ++ x :: after /\ f x = true
                /\ forall y, In y before -> f y = false
  | None => forall y, In y l -> f y = false
  end.
Proof.
  induction l as [| a l IH]; cbn [find]; [intros y [] |].
  destruct (f a) eqn:E.
  - exists [], l. repeat split; [exact E | intros y []].
  - destruct (find f l) as [x |].
    + destruct IH as (before & after & -> & Hx & Hb).
      exists (a :: before), after. repeat split; [exact Hx |].
      intros y [<- | Hy]; [exact E | now apply Hb].
    + intros y [<- | Hy]; [exact E | now apply IH].
Qed.

(** X6. [_detect_sensor_key] never raises and leaves the monitor alone.  It
    answers with the first key of the preference list that is in the sensor
    table, every key before it being absent; it answers [None] when no
    preferred key is in the table or when [sensors_temperatures] raises. *)
Theorem detect_sensor_key_first_present cfg p m tr :
  exists r,
    _detect_sensor_key cfg p (m, tr) = (Ok r, (m, tr ++ [CallSensorsTemperatures]))
    /\ (forall e, sensors_temperatures p = Raise e -> r = None)
    /\ (forall temps, sensors_temperatures p = Ok temps ->
          match r with
          | Some k =>
              exists before after,
                cpu_sensor_keys cfg = before ++ k :: after
                /\ table_get k temps <> None
                /\ forall k', In k' before -> table_get k' temps = None
          | None => forall k, In k (cpu_sensor_keys cfg) -> table_get k temps = None
          end).
Proof.
  unfold _detect_sensor_key, try_except, bind, call, ret. cbn [fst snd].
  destruct (sensors_temperatures p) as [temps | e].
  - eexists. split; [reflexivity |]. split; [discriminate |].
    intros temps' [= <-].
    pose proof (find_first
                  (fun key => match table_get key temps with
                              | Some _ => true
                              | None => false
                              end) (cpu_sensor_keys cfg)) as H.
    destruct (find _ (cpu_sensor_keys cfg)) as [k |].
    + destruct H as (before & after & Hl & Hk & Hb).
      exists before, after. repeat split; [exact Hl | |].
      * intros E. now rewrite E in Hk.
      * intros k' Hk'. specialize (Hb k' Hk').
        now destruct (table_get k' temps).
    + intros k Hk. specialize (H k Hk). now destruct (table_get k temps).
  - exists None. split; [reflexivity |]. split; [reflexivity | discriminate].
Qed.

Lemma detect_sensor_key_first_present_witness :
  sensors_temperatures (tick_ok 10 100) = Ok coretemp_table
  /\ exists r,
       _detect_sensor_key SETTINGS (tick_ok 10 100) (fresh_monitor, [])
       = (Ok r, (fresh_monitor, [] ++ [CallSensorsTemperatures]))
       /\ match r with
          | Some k =>
              exists before after,
                cpu_sensor_keys SETTINGS = before ++ k :: after
                /\ table_get k coretemp_table <> None
                /\ forall k', In k' before -> table_get k' coretemp_table = None
          | None =>
              forall k, In k (cpu_sensor_keys SETTINGS) ->
                        table_get k coretemp_table = None
          end.
Proof.
  split; [reflexivity |].
  destruct (detect_sensor_key_first_present SETTINGS (tick_ok 10 100)
              fresh_monitor []) as (r & Hr & _ & H).
  exists r. split; [exact Hr | exact (H coretemp_table eq_refl)].
Defined.

(** * Beyond the claims: the monitoring loop *)
Lemma run_loop_stopped cfg ps w : running (fst w) = false -> run_loop cfg ps w = w.
Proof. intros H. destruct ps; cbn [run_loop]; [reflexivity | now rewrite H]. Qed.

Lemma run_loop_running cfg ps :
  forall w, running (fst w) = true -> run_loop cfg ps w = ticks cfg ps w.
Proof.
  induction ps as [| p ps IH]; intros w H; [reflexivity |].
  cbn [run_loop]. rewrite H. unfold ticks. cbn [fold_left]. apply IH.
  destruct (sample_session cfg p w) as (Hr & _). cbv zeta in Hr. congruence.
Qed.

(** X7. The loop of [run] samples only while the flag is set: on a monitor
    that has been stopped it performs no tick, makes no call and logs
    nothing, and on a running monitor it performs every tick it is given,
    since sampling itself never clears the flag. *)
Theorem loop_runs_only_while_running cfg ps m tr now :
  run_loop cfg ps (stop now m, tr) = (stop now m, tr)
  /\ (running m = false -> run_loop cfg ps (m, tr) = (m, tr))
  /\ (running m = true ->
      run_loop cfg ps (m, tr) = ticks cfg ps (m, tr)
      /\ running (fst (run_loop cfg ps (m, tr))) = true).
Proof.
  split; [now apply run_loop_stopped |].
  split; [intros H; now apply run_loop_stopped |].
  intros H. rewrite (run_loop_running cfg ps (m, tr) H). split; [reflexivity |].
  induction ps as [| p ps IH] using rev_ind; [exact H |].
  rewrite ticks_snoc.
  destruct (sample_session cfg p (ticks cfg ps (m, tr))) as (Hr & _).
  cbv zeta in Hr. congruence.
Qed.

Lemma loop_runs_only_while_running_witness :
  running fresh_monitor = true
  /\ run_loop SETTINGS [tick_ok 10 100; tick_cpu_fails 101] (fresh_monitor, [])
     = ticks SETTINGS [tick_ok 10 100; tick_cpu_fails 101] (fresh_monitor, []).
Proof.
  split; [reflexivity |].
  destruct (loop_runs_only_while_running SETTINGS
              [tick_ok 10 100; tick_cpu_fails 101] fresh_monitor [] 0)
    as (_ & _ & H).
  exact (proj1 (H eq_refl)).
Defined.

Lemma ticks_sensor_key cfg ps w :
  _sensor_key (fst (ticks cfg ps w)) = _sensor_key (fst w).
Proof.
  induction ps as [| p ps IH] using rev_ind; [reflexivity |].
  rewrite ticks_snoc.
  destruct (sample_session cfg p (ticks cfg ps w)) as (_ & Hk & _).
  cbv zeta in Hk. congruence.
Qed.

Lemma detect_sensor_key_spec cfg p m tr :
  exists r,
    _detect_sensor_key cfg p (m, tr) = (Ok r, (m, tr ++ [CallSensorsTemperatures])).
Proof.
  unfold _detect_sensor_key, try_except, bind, call, ret. cbn [fst snd].
  destruct (sensors_temperatures p); eexists; reflexivity.
Qed.

Lemma sample_trace_extends cfg p w :
  exists evs, snd (exec (sample cfg p) w) = snd w ++ evs.
Proof.
  destruct w as [m tr]. sample_cases cfg p m tr; cbn [snd]; eexists; reflexivity.
Qed.

Lemma ticks_trace_extends cfg ps w :
  exists evs, snd (ticks cfg ps w) = snd w ++ evs.
Proof.
  induction ps as [| p ps IH] using rev_ind.
  - exists []. cbn. now rewrite app_nil_r.
  - destruct IH as (evs & IH). rewrite ticks_snoc.
    destruct (sample_trace_extends cfg p (ticks cfg ps w)) as (evs' & H).
    exists (evs ++ evs'). now rewrite H, IH, app_assoc.
Qed.

(** X8. [run] resolves the sensor key once, before the first tick: whatever the
    later ticks see, the key the monitor holds after the run is the answer
    of that one detection, which is the first call of the run; the ticks
    then run on the monitor holding that key. *)
Theorem run_resolves_sensor_key_once cfg p0 ps m tr :
  running m = true ->
  exists r evs,
    fst (_detect_sensor_key cfg p0 (m, tr)) = Ok r
    /\ _sensor_key (fst (run cfg p0 ps (m, tr))) = r
    /\ run cfg p0 ps (m, tr)
       = ticks cfg ps (set_sensor_key r m, tr ++ [CallSensorsTemperatures])
    /\ snd (run cfg p0 ps (m, tr)) = tr ++ CallSensorsTemperatures :: evs.
Proof.
  intros Hrun.
  destruct (detect_sensor_key_spec cfg p0 m tr) as (r & Hr).
  assert (Hw : run cfg p0 ps (m, tr)
               = ticks cfg ps (set_sensor_key r m, tr ++ [CallSensorsTemperatures])).
  { unfold run, exec, bind, modify. rewrite Hr. cbn [fst snd].
    now apply run_loop_running. }
  destruct (ticks_trace_extends cfg ps
              (set_sensor_key r m, tr ++ [CallSensorsTemperatures])) as (evs & Hevs).
  exists r, evs. rewrite Hr. split; [reflexivity |].
  split; [now rewrite Hw, ticks_sensor_key |].
  split; [exact Hw |].
  rewrite Hw, Hevs. cbn [snd]. now rewrite <- app_assoc.
Qed.

Lemma run_resolves_sensor_key_once_witness :
  running fresh_monitor = true
  /\ exists r,
       fst (_detect_sensor_key SETTINGS (tick_ok 10 100) (fresh_monitor, [])) = Ok r
       /\ _sensor_key
            (fst (run SETTINGS (tick_ok 10 100) [tick_zero_package; tick_ok 20 103]
                    (fresh_monitor, [])))
          = r.
Proof.
  split; [reflexivity |].
  destruct (run_resolves_sensor_key_once SETTINGS (tick_ok 10 100)
              [tick_zero_package; tick_ok 20 103] fresh_monitor [] eq_refl)
    as (r & evs & Hd & Hk & _).
  exists r. split; [exact Hd | exact Hk].
Defined.

(** * Beyond the claims: what a reader of the windows sees *)
Lemma deque_last_append {A : Type} (d : deque A) (x : A) :
  (0 < maxlen d)%nat -> deque_last (deque_append d x) = Ok x.
Proof.
  intros H. unfold deque_last, deque_append. cbn [items].
  destruct (Nat.ltb_spec (maxlen d) (length (items d ++ [x]))) as [H' | H'].
  - destruct (items d) as [| a l] eqn:E.
    + cbn in H'. lia.
    + cbn [app tl]. now rewrite rev_app_distr.
  - now rewrite rev_app_distr.
Qed.

Lemma deque_append_zero {A : Type} (d : deque A) (x : A) :
  maxlen d = 0%nat -> items d = [] -> items (deque_append d x) = [].
Proof. intros H E. unfold deque_append. now rewrite H, E. Qed.

(** X9. After a tick whose CPU-percent read succeeds, the newest element of
    the CPU window, the one the display shows as current, is that reading,
    provided the window has room for at least one sample; a window of
    capacity zero stays empty and has no newest element. *)
Theorem latest_cpu_sample_is_last_read cfg p m tr c :
  cpu_percent p = Ok c ->
  let d := cpu_samples (fst (exec (sample cfg p) (m, tr))) in
  ((0 < maxlen (cpu_samples m))%nat -> deque_last d = Ok c)
  /\ (maxlen (cpu_samples m) = 0%nat -> items (cpu_samples m) = [] ->
      items d = [] /\ exists e, deque_last d = Raise e).
Proof.
  intros Hc. cbv zeta. rewrite sample_cpu_samples. cbn [fst].
  unfold cpu_value. rewrite Hc. cbn [deque_append_opt]. split.
  - apply deque_last_append.
  - intros H0 He. pose proof (deque_append_zero _ c H0 He) as Hi.
    split; [exact Hi |]. unfold deque_last. rewrite Hi. cbn. eauto.
Qed.

Lemma latest_cpu_sample_is_last_read_witness :
  cpu_percent (tick_ok 37 100) = Ok 37%Q
  /\ (0 < maxlen (cpu_samples export_monitor))%nat
  /\ deque_last
       (cpu_samples (fst (exec (sample SETTINGS (tick_ok 37 100)) (export_monitor, []))))
     = Ok 37%Q.
Proof.
  assert (H0 : (0 < maxlen (cpu_samples export_monitor))%nat) by (cbn; lia).
  split; [reflexivity |]. split; [exact H0 |].
  exact (proj1 (latest_cpu_sample_is_last_read SETTINGS (tick_ok 37 100)
                  export_monitor [] 37 eq_refl) H0).
Defined.



(** * Beyond the claims: statistics of a window *)
Lemma Qlt_bool_iff a b : Qlt_bool a b = true <-> (a < b)%Q.
Proof.
  unfold Qlt_bool. rewrite negb_true_iff. apply Qle_bool_false.
Qed.

Lemma Qlt_bool_false a b : Qlt_bool a b = false <-> (b <= a)%Q.
Proof.
  unfold Qlt_bool. rewrite negb_false_iff. apply Qle_bool_iff.
Qed.

Lemma fold_max_spec rest :
  forall x,
    let r := fold_left (fun best y => if Qlt_bool best y then y else best) rest x in
    In r (x :: rest) /\ forall y, In y (x :: rest) -> (y <= r)%Q.
Proof.
  induction rest as [| a rest IH]; intros x; cbv zeta.
  - cbn. split; [now left |]. intros y [<- | []]. apply Qle_refl.
  - cbn [fold_left]. destruct (Qlt_bool x a) eqn:E.
    + destruct (IH a) as [Hin Hle]. split.
      * right. exact Hin.
      * intros y [<- | Hy]; [| now apply Hle].
        apply Qlt_bool_iff in E. apply Qlt_le_weak.
        eapply Qlt_le_trans; [exact E |]. apply Hle. now left.
    + destruct (IH x) as [Hin Hle]. split.
      * destruct Hin as [<- | Hin]; [now left | right; now right].
      * intros y [<- | [<- | Hy]].
        -- apply Hle. now left.
        -- apply Qlt_bool_false in E.
           eapply Qle_trans; [exact E |]. apply Hle. now left.
        -- apply Hle. now right.
Qed.

Lemma fold_min_spec rest :
  forall x,
    let r := fold_left (fun best y => if Qlt_bool y best then y else best) rest x in
    In r (x :: rest) /\ forall y, In y (x :: rest) -> (r <= y)%Q.
Proof.
  induction rest as [| a rest IH]; intros x; cbv zeta.
  - cbn. split; [now left |]. intros y [<- | []]. apply Qle_refl.
  - cbn [fold_left]. destruct (Qlt_bool a x) eqn:E.
    + destruct (IH a) as [Hin Hle]. split.
      * right. exact Hin.
      * intros y [<- | Hy]; [| now apply Hle].
        apply Qlt_bool_iff in E. apply Qlt_le_weak.
        eapply Qle_lt_trans; [| exact E]. apply Hle. now left.
    + destruct (IH x) as [Hin Hle]. split.
      * destruct Hin as [<- | Hin]; [now left | right; now right].
      * intros y [<- | [<- | Hy]].
        -- apply Hle. now left.
        -- apply Qlt_bool_false in E.
           eapply Qle_trans; [| exact E]. apply Hle. now left.
        -- apply Hle. now right.
Qed.

Lemma py_max_spec l :
  l <> [] ->
  exists hi, py_max l = Ok hi /\ In hi l /\ forall y, In y l -> (y <= hi)%Q.
Proof.
  destruct l as [| x rest]; [congruence |]. intros _.
  eexists. split; [reflexivity |]. apply fold_max_spec.
Qed.

Lemma py_min_spec l :
  l <> [] ->
  exists lo, py_min l = Ok lo /\ In lo l /\ forall y, In y l -> (lo <= y)%Q.
Proof.
  destruct l as [| x rest]; [congruence |]. intros _.
  eexists. split; [reflexivity |]. apply fold_min_spec.
Qed.

(** The severity never goes down when the value goes up. *)
Lemma colorize_color_mono x y warn crit :
  (x <= y)%Q ->
  (colorize_color x warn crit = red -> colorize_color y warn crit = red)
  /\ (colorize_color y warn crit = green -> colorize_color x warn crit = green).
Proof.
  intros Hxy. unfold colorize_color.
  destruct (Qle_bool crit x) eqn:Ecx, (Qle_bool crit y) eqn:Ecy,
    (Qle_bool warn x) eqn:Ewx, (Qle_bool warn y) eqn:Ewy;
    split; intros H; try reflexivity; try discriminate; exfalso;
    repeat match goal with
      | E : Qle_bool _ _ = true |- _ => apply Qle_bool_iff in E
      | E : Qle_bool _ _ = false |- _ => apply Qle_bool_false in E
      end.
  all: match goal with
       | H0 : (?a <= ?b)%Q, H1 : (?c <= ?a)%Q, H2 : (?b < ?c)%Q |- _ =>
           exact (Qlt_not_le _ _ H2 (Qle_trans _ _ _ H1 H0))
       end.
Qed.

(** X10. The peak the display shows and the Min/Max lines of the summary are
    taken from the window itself: for a non-empty window [max] and [min]
    return elements of it that bound every sample, so a red sample forces a
    red peak and a green peak means every sample is green.  On an empty
    window the display's peak is the default 0 and a bare [max] or [min]
    raises. *)
Theorem peak_and_extremes_bound_the_window (d : deque Q) warn crit :
  (items d <> [] ->
   exists lo hi,
     py_min (items d) = Ok lo /\ py_max (items d) = Ok hi
     /\ py_max_default (items d) 0 = Ok hi
     /\ In lo (items d) /\ In hi (items d)
     /\ forall x, In x (items d) ->
          (lo <= x)%Q /\ (x <= hi)%Q
          /\ (colorize_color x warn crit = red -> colorize_color hi warn crit = red)
          /\ (colorize_color hi warn crit = green -> colorize_color x warn crit = green))
  /\ (items d = [] ->
      py_max_default (items d) 0 = Ok 0%Q
      /\ (exists e, py_max (items d) = Raise e)
      /\ (exists e, py_min (items d) = Raise e)).
Proof.
  split.
  - intros Hne.
    destruct (py_min_spec _ Hne) as (lo & Hlo & Hlin & Hlle).
    destruct (py_max_spec _ Hne) as (hi & Hhi & Hhin & Hhle).
    exists lo, hi. repeat split; auto.
    + unfold py_max_default. destruct (items d); [congruence | exact Hhi].
    + apply (colorize_color_mono x hi warn crit). now apply Hhle.
    + apply (colorize_color_mono x hi warn crit). now apply Hhle.
  - intros ->. cbn. eauto.
Qed.

Lemma peak_and_extremes_bound_the_window_witness :
  items (cpu_samples export_monitor) <> []
  /\ exists lo hi,
       py_min (items (cpu_samples export_monitor)) = Ok lo
       /\ py_max (items (cpu_samples export_monitor)) = Ok hi
       /\ In lo (items (cpu_samples export_monitor))
       /\ In hi (items (cpu_samples export_monitor)).
Proof.
  assert (H : items (cpu_samples export_monitor) <> []) by (cbn; discriminate).
  split; [exact H |].
  destruct (proj1 (peak_and_extremes_bound_the_window (cpu_samples export_monitor)
                     70 90) H)
    as (lo & hi & Hlo & Hhi & _ & Hl & Hh & _).
  exists lo, hi. repeat split; assumption.
Defined.

(** * Beyond the claims: the summary *)
Lemma round_half_even_nonneg x : (0 <= x)%Q -> 0 <= Float.round_half_even x.
Proof.
  intros H. unfold Float.round_half_even.
  assert (Hf : 0 <= Qfloor x).
  { change 0 with (Qfloor 0). now apply Qfloor_resp_le. }
  destruct (_ ?= _)%Q; [destruct (Z.even _) | |]; lia.
Qed.

Lemma to_float_nonneg x : (0 <= x)%Q -> (0 <= Float.to_float x)%Q.
Proof.
  intros H. unfold Float.to_float.
  destruct (Qeq_bool (Qred x) 0); [apply Qle_refl |].
  rewrite Qred_correct. apply Qmult_le_0_compat.
  - change 0%Q with (inject_Z 0). rewrite <- Zle_Qle.
    apply round_half_even_nonneg. apply Qmult_le_0_compat.
    + now rewrite Qred_correct.
    + apply Qlt_le_weak, FloatFacts.pow2_pos.
  - apply Qlt_le_weak, FloatFacts.pow2_pos.
Qed.

Lemma int_of_float_comp x y :
  (x == y)%Q -> Float.int_of_float x = Float.int_of_float y.
Proof.
  intros H. unfold Float.int_of_float.
  assert (E : Qle_bool 0 x = Qle_bool 0 y).
  { destruct (Qle_bool 0 x) eqn:Ex, (Qle_bool 0 y) eqn:Ey; try reflexivity.
    - apply Qle_bool_iff in Ex. rewrite H in Ex. apply Qle_bool_iff in Ex. congruence.
    - apply Qle_bool_iff in Ey. rewrite <- H in Ey. apply Qle_bool_iff in Ey.
      congruence. }
  rewrite E, (Qfloor_comp _ _ H), (Qceiling_comp _ _ H). reflexivity.
Qed.

Lemma int_of_float_nonneg x : (0 <= x)%Q -> 0 <= Float.int_of_float x.
Proof.
  intros H. unfold Float.int_of_float.
  apply Qle_bool_iff in H as Hb. rewrite Hb.
  change 0 with (Qfloor 0). now apply Qfloor_resp_le.
Qed.

Lemma int_of_float_Z z : Float.int_of_float (inject_Z z) = z.
Proof.
  unfold Float.int_of_float. rewrite Qfloor_Z, Qceiling_Z. now destruct (Qle_bool _ _).
Qed.

Lemma is_float_Z z : Z.abs z < 2 ^ Float.prec -> Float.is_float (inject_Z z).
Proof.
  intros H. exists z, 0. repeat split; [unfold Float.emin; lia | exact H |].
  unfold Float.pow2. cbn. ring.
Qed.

(** X11. The duration line of the summary.  The hours, minutes and seconds
    printed recompose to the whole seconds between start and end, with
    minutes and seconds always in 0..59; the hours are never negative when
    the end is not before the start; and for an interval of a whole number
    [n] of seconds (below 2^53) the three fields recompose to [n]
    itself. *)
Theorem duration_fields_recompose start_ end_ :
  let '(hours, minutes, seconds) := duration_hms start_ end_ in
  hours * 3600 + minutes * 60 + seconds
  = Float.int_of_float (total_seconds (end_ - start_))
  /\ 0 <= minutes < 60
  /\ 0 <= seconds < 60
  /\ (start_ <= end_ -> 0 <= hours)
  /\ (forall n, Z.abs n < 2 ^ 53 -> end_ - start_ = n * 1000000 ->
        hours * 3600 + minutes * 60 + seconds = n).
Proof.
  unfold duration_hms.
  set (total := Float.int_of_float (total_seconds (end_ - start_))).
  pose proof (Z.div_mod total 3600 ltac:(lia)) as H1.
  pose proof (Z.mod_pos_bound total 3600 ltac:(lia)) as H2.
  pose proof (Z.div_mod (total mod 3600) 60 ltac:(lia)) as H3.
  pose proof (Z.mod_pos_bound (total mod 3600) 60 ltac:(lia)) as H4.
  assert (H5 : 0 <= total mod 3600 / 60 < 60).
  { split; [apply Z.div_pos; lia | apply Z.div_lt_upper_bound; lia]. }
  assert (Hsum : total / 3600 * 3600 + total mod 3600 / 60 * 60
                 + (total mod 3600) mod 60 = total) by lia.
  split; [exact Hsum |]. split; [exact H5 |]. split; [exact H4 |]. split.
  - intros Hle. apply Z.div_pos; [| lia]. unfold total.
    apply int_of_float_nonneg. unfold total_seconds. apply to_float_nonneg.
    apply Qle_shift_div_l; [reflexivity |]. rewrite Qmult_0_l.
    change 0%Q with (inject_Z 0). rewrite <- Zle_Qle. lia.
  - intros n Hn Hd. rewrite Hsum. unfold total, total_seconds. rewrite Hd.
    rewrite (int_of_float_comp _ (inject_Z n)); [apply int_of_float_Z |].
    rewrite (to_float_comp _ (inject_Z n)).
    + apply FloatFacts.to_float_id. now apply is_float_Z.
    + rewrite inject_Z_mult. field.
Qed.

Lemma duration_fields_recompose_witness :
  0 <= 3725000000
  /\ duration_hms 0 3725000000 = (1, 2, 5)
  /\ 1 * 3600 + 2 * 60 + 5 = 3725.
Proof.
  split; [lia |].
  pose proof (duration_fields_recompose 0 3725000000) as H.
  assert (E : duration_hms 0 3725000000 = (1, 2, 5)) by (vm_compute; reflexivity).
  rewrite E in H. destruct H as (_ & _ & _ & _ & H).
  split; [exact E |].
  apply (H 3725); [vm_compute; reflexivity | reflexivity].
Defined.

Lemma summary_stats_ok name unit warn crit (d : deque Q) :
  items d <> [] ->
  exists a lo hi,
    avg d = Ok a /\ py_min (items d) = Ok lo /\ py_max (items d) = Ok hi
    /\ summary_stats name unit warn crit d
       = Ok [("Average " ++ name ++ ": " ++ colorize a warn crit unit)%string;
             ("Min " ++ name ++ ": " ++ colorize lo warn crit unit)%string;
             ("Max " ++ name ++ ": " ++ colorize hi warn crit unit)%string].
Proof.
  intros Hne.
  destruct (py_min_spec _ Hne) as (lo & Hlo & _).
  destruct (py_max_spec _ Hne) as (hi & Hhi & _).
  assert (Ha : exists a, avg d = Ok a).
  { unfold avg, mean. destruct (items d); eauto. }
  destruct Ha as (a & Ha). exists a, lo, hi.
  unfold summary_stats. rewrite Ha, Hlo, Hhi. cbn [rbind]. auto.
Qed.

(** X12. [print_summary] never raises, whatever state the monitor was left in:
    [mean], [min] and [max] are only reached on a non-empty window.  It
    prints three statistics lines for a window with data and a single "no
    data" line for an empty one, after the two header lines and, when both
    the start and the end time are set, the three time lines. *)
Theorem print_summary_never_raises strftime m :
  exists lines,
    print_summary strftime m = Ok lines
    /\ length lines
       = (2 + (match start_time m, end_time m with
               | Some _, Some _ => 3
               | _, _ => 0
               end)
          + (match items (cpu_samples m) with [] => 1 | _ => 3 end)
          + (match items (temp_samples m) with [] => 1 | _ => 3 end))%nat
    /\ (items (cpu_samples m) = []
        <-> In "[yellow]No CPU usage data collected.[/yellow]"%string lines)
    /\ (items (temp_samples m) = []
        <-> In "[yellow]No temperature data was collected.[/yellow]"%string lines).
Proof.
  unfold print_summary.
  set (times := match start_time m, end_time m with
                | Some st, Some en => _
                | _, _ => []
                end).
  assert (Htimes : length times
                   = match start_time m, end_time m with
                     | Some _, Some _ => 3%nat
                     | _, _ => 0%nat
                     end
                   /\ forall l, In l times -> String.prefix "[cyan]" l = true).
  { unfold times. destruct (start_time m) as [st |], (end_time m) as [en |];
      (split; [reflexivity |]); intros l Hl;
      try (destruct Hl as [<- | [<- | [<- | []]]]; reflexivity); destruct Hl. }
  destruct Htimes as [Hlen Hcyan]. clearbody times.
  assert (Hcpu : exists cpu,
             match items (cpu_samples m) with
             | _ :: _ => summary_stats "CPU usage" "%" (cpu_warn THRESHOLDS)
                           (cpu_crit THRESHOLDS) (cpu_samples m)
             | [] => Ok ["[yellow]No CPU usage data collected.[/yellow]"%string]
             end = Ok cpu
             /\ length cpu = match items (cpu_samples m) with [] => 1 | _ => 3 end%nat
             /\ (items (cpu_samples m) = []
                 -> cpu = ["[yellow]No CPU usage data collected.[/yellow]"%string])
             /\ (items (cpu_samples m) <> []
                 -> forall l, In l cpu -> String.prefix "[" l = false)).
  { destruct (items (cpu_samples m)) as [| x rest] eqn:E.
    - eexists. repeat split; congruence.
    - destruct (summary_stats_ok "CPU usage" "%" (cpu_warn THRESHOLDS)
                  (cpu_crit THRESHOLDS) (cpu_samples m)) as (a & lo & hi & _ & _ & _ & ->);
        [congruence |].
      eexists. repeat split; try discriminate.
      intros _ l [<- | [<- | [<- | []]]]; reflexivity. }
  assert (Htemp : exists temp,
             match items (temp_samples m) with
             | _ :: _ => summary_stats "temperature" "°C" (temp_warn THRESHOLDS)
                           (temp_crit THRESHOLDS) (temp_samples m)
             | [] => Ok ["[yellow]No temperature data was collected.[/yellow]"%string]
             end = Ok temp
             /\ length temp = match items (temp_samples m) with [] => 1 | _ => 3 end%nat
             /\ (items (temp_samples m) = []
                 -> temp = ["[yellow]No temperature data was collected.[/yellow]"%string])
             /\ (items (temp_samples m) <> []
                 -> forall l, In l temp -> String.prefix "[" l = false)).
  { destruct (items (temp_samples m)) as [| x rest] eqn:E.
    - eexists. repeat split; congruence.
    - destruct (summary_stats_ok "temperature" "°C" (temp_warn THRESHOLDS)
                  (temp_crit THRESHOLDS) (temp_samples m))
        as (a & lo & hi & _ & _ & _ & ->); [congruence |].
      eexists. repeat split; try discriminate.
      intros _ l [<- | [<- | [<- | []]]]; reflexivity. }
  destruct Hcpu as (cpu & -> & Hcl & Hc0 & Hc1).
  destruct Htemp as (temp & -> & Htl & Ht0 & Ht1).
  cbn [rbind]. eexists. split; [reflexivity |].
  split; [cbn [length app]; rewrite !length_app, Hlen, Hcl, Htl; lia |].
  split.
  - split.
    + intros E. rewrite (Hc0 E). cbn [In app]. right. right.
      apply in_or_app. right. now left.
    + intros Hin.
      destruct (items (cpu_samples m)) as [| x rest] eqn:E; [reflexivity |].
      exfalso. cbn [In app] in Hin.
      destruct Hin as [H | [H | Hin]]; try discriminate.
      apply in_app_or in Hin as [H | Hin]; [apply Hcyan in H; discriminate |].
      apply in_app_or in Hin as [H | H].
      * apply Hc1 in H; [discriminate | congruence].
      * destruct (items (temp_samples m)) as [| y rest'] eqn:E'.
        -- rewrite (Ht0 eq_refl) in H. destruct H as [H | []]. discriminate.
        -- apply Ht1 in H; [discriminate | congruence].
  - split.
    + intros E. rewrite (Ht0 E). cbn [In app]. right. right.
      apply in_or_app. right. apply in_or_app. right. now left.
    + intros Hin.
      destruct (items (temp_samples m)) as [| x rest] eqn:E; [reflexivity |].
      exfalso. cbn [In app] in Hin.
      destruct Hin as [H | [H | Hin]]; try discriminate.
      apply in_app_or in Hin as [H | Hin]; [apply Hcyan in H; discriminate |].
      apply in_app_or in Hin as [H | H].
      * destruct (items (cpu_samples m)) as [| y rest'] eqn:E'.
        -- rewrite (Hc0 eq_refl) in H. destruct H as [H | []]. discriminate.
        -- apply Hc1 in H; [discriminate | congruence].
      * apply Ht1 in H; [discriminate | congruence].
Qed.

(** * Beyond the claims: the display *)
Lemma deque_last_ok {A : Type} (d : deque A) :
  items d <> [] ->
  exists x l, deque_last d = Ok x /\ items d = l ++ [x].
Proof.
  intros H. unfold deque_last.
  destruct (rev (items d)) as [| x r] eqn:E.
  - apply (f_equal (@rev A)) in E. rewrite rev_involutive in E. now destruct H.
  - exists x, (rev r). split; [reflexivity |].
    apply (f_equal (@rev A)) in E. now rewrite rev_involutive in E.
Qed.

Lemma avg_ok (d : deque Q) : exists a, avg d = Ok a.
Proof. unfold avg, mean. destruct (items d); eauto. Qed.

Lemma ui_current_cpu_ok m :
  exists cur,
    ui_current_cpu m = Ok cur
    /\ (items (cpu_samples m) = [] -> cur = 0%Q)
    /\ (forall l x, items (cpu_samples m) = l ++ [x] -> cur = x).
Proof.
  unfold ui_current_cpu. destruct (items (cpu_samples m)) as [| a r] eqn:E.
  - exists 0%Q. repeat split. intros l x H. now destruct l.
  - destruct (deque_last_ok (cpu_samples m)) as (x & l & Hx & Hl); [congruence |].
    exists x. split; [exact Hx |]. split; [discriminate |].
    intros l' x' H. rewrite E in Hl. rewrite Hl in H.
    now apply app_inj_tail in H.
Qed.

Lemma ui_peak_cpu_ok m : exists pk, ui_peak_cpu m = Ok pk.
Proof.
  unfold ui_peak_cpu, py_max_default, py_max.
  destruct (items (cpu_samples m)); eauto.
Qed.

Lemma ui_temp_row_ok m :
  exists row,
    ui_temp_row m = Ok row
    /\ (items (temp_samples m) = []
        <-> row = "[yellow]No temperature data[/yellow]"%string).
Proof.
  unfold ui_temp_row. destruct (items (temp_samples m)) as [| a r] eqn:E.
  - eexists. split; [reflexivity |]. now split.
  - destruct (deque_last_ok (temp_samples m)) as (x & l & -> & _); [congruence |].
    destruct (avg_ok (temp_samples m)) as (av & ->). cbn [rbind].
    eexists. split; [reflexivity |]. split; discriminate.
Qed.



(** * Beyond the claims: saving the log *)
Lemma string_app_assoc (a b c : string) :
  ((a ++ b) ++ c = a ++ (b ++ c))%string.
Proof.
  induction a as [| x a IH]; [reflexivity |].
  cbn [String.append]. now rewrite IH.
Qed.

Lemma ws_char_lstrip w t : ws_char w = true -> lstrip (w ++ t) = lstrip t.
Proof.
  destruct w as [| a [| b [| c [| d w]]]]; cbn [ws_char]; try discriminate; intros H.
  - cbn [String.append lstrip]. now rewrite H.
  - apply andb_true_iff in H as [Ha Hb]. apply negb_true_iff in Ha.
    cbn [String.append lstrip]. now rewrite Ha, Hb.
  - apply andb_true_iff in H as [H Hc]. apply andb_true_iff in H as [Ha Hb].
    apply negb_true_iff in Ha. apply negb_true_iff in Hb.
    cbn [String.append lstrip]. now rewrite Ha, Hb, Hc.
Qed.

Lemma lstrip_cases s :
  lstrip s = s
  \/ exists w rest, s = (w ++ rest)%string /\ ws_char w = true.
Proof.
  destruct s as [| a s1]; [now left |].
  destruct (is_space a) eqn:Ha.
  { right. exists (String a ""), s1. cbn. auto. }
  destruct s1 as [| b s2]; [left; cbn; now rewrite Ha |].
  destruct (is_space2 a b) eqn:Hb.
  { right. exists (String a (String b "")), s2. cbn. now rewrite Ha, Hb. }
  destruct s2 as [| c s3]; [left; cbn; now rewrite Ha, Hb |].
  destruct (is_space3 a b c) eqn:Hc.
  - right. exists (String a (String b (String c ""))), s3. cbn. now rewrite Ha, Hb, Hc.
  - left. cbn. now rewrite Ha, Hb, Hc.
Qed.

Lemma ws_char_nonempty w : ws_char w = true -> w <> ""%string.
Proof. destruct w; [discriminate | discriminate]. Qed.

Lemma length_string_app (a b : string) :
  String.length (a ++ b) = (String.length a + String.length b)%nat.
Proof. induction a as [| c a IH]; cbn; [reflexivity | now rewrite IH]. Qed.

Lemma lstrip_spec s :
  exists pre, s = (pre ++ lstrip s)%string /\ all_space pre = true.
Proof.
  remember (String.length s) as n eqn:Hn.
  revert s Hn. induction n as [n IH] using lt_wf_ind. intros s Hn.
  destruct (lstrip_cases s) as [H | (w & rest & -> & Hw)].
  - exists ""%string. rewrite H. now split.
  - destruct (IH (String.length rest)) with (s := rest) as (pre & Hpre & Hsp);
      [| reflexivity |].
    + rewrite Hn, length_string_app. destruct w; [discriminate | cbn; lia].
    + exists (w ++ pre)%string. rewrite (ws_char_lstrip w rest Hw). split.
      * rewrite string_app_assoc. now rewrite <- Hpre.
      * unfold all_space in *. now rewrite (ws_char_lstrip w pre Hw).
Qed.

Lemma lstrip_app pre s : all_space pre = true -> lstrip (pre ++ s) = lstrip s.
Proof.
  remember (String.length pre) as n eqn:Hn.
  revert pre Hn. induction n as [n IH] using lt_wf_ind. intros pre Hn Hsp.
  destruct (lstrip_cases pre) as [H | (w & rest & -> & Hw)].
  - unfold all_space in Hsp. rewrite H in Hsp. now destruct pre.
  - rewrite string_app_assoc, (ws_char_lstrip w _ Hw).
    apply (IH (String.length rest)); [| reflexivity |].
    + rewrite Hn, length_string_app. destruct w; [discriminate | cbn; lia].
    + unfold all_space in *. now rewrite (ws_char_lstrip w rest Hw) in Hsp.
Qed.

Lemma rstrip_all_space s : all_space s = true -> rstrip s = ""%string.
Proof. destruct s as [| c s]; [reflexivity |]. cbn [rstrip]. now intros ->. Qed.

Lemma rstrip_spec s :
  exists post, s = (rstrip s ++ post)%string /\ all_space post = true.
Proof.
  induction s as [| c s IH]; [now exists ""%string |].
  cbn [rstrip]. destruct (all_space (String c s)) eqn:E.
  - exists (String c s). now split.
  - destruct IH as (post & Hs & Hp). exists post. cbn [String.append].
    split; [congruence | exact Hp].
Qed.

Lemma strip_blank s : all_space s = true -> strip s = ""%string.
Proof.
  unfold strip, all_space. intros H. now destruct (lstrip s).
Qed.

Lemma rstrip_empty s : rstrip s = ""%string -> all_space s = true.
Proof.
  destruct s as [| c s]; [reflexivity |]. cbn [rstrip].
  now destruct (all_space (String c s)).
Qed.

Lemma lstrip_idem s : lstrip (lstrip s) = lstrip s.
Proof.
  destruct (lstrip_spec s) as (pre & Hs & Hp).
  rewrite Hs at 2. now rewrite (lstrip_app _ _ Hp).
Qed.

Lemma strip_empty_blank s : strip s = ""%string -> all_space s = true.
Proof.
  unfold strip. intros H. apply rstrip_empty in H.
  unfold all_space in *. now rewrite lstrip_idem in H.
Qed.

Lemma lower_ascii_y c : lower_ascii c = "y"%char <-> c = "y"%char \/ c = "Y"%char.
Proof.
  split.
  - destruct c as [[] [] [] [] [] [] [] []]; vm_compute; intros H;
      try discriminate; auto.
  - intros [-> | ->]; reflexivity.
Qed.

Lemma lstrip_letter c post :
  c = "y"%char \/ c = "Y"%char -> lstrip (String c post) = String c post.
Proof.
  intros [-> | ->]; destruct post as [| b [| d s3]]; reflexivity.
Qed.

Lemma choice_is_y_iff answer : lower (strip answer) = "y"%string <-> says_yes answer.
Proof.
  unfold strip, says_yes. split.
  - intros H.
    destruct (lstrip_spec answer) as (pre & Ha & Hpre).
    destruct (rstrip_spec (lstrip answer)) as (post & Hl & Hpost).
    destruct (rstrip (lstrip answer)) as [| c r]; [discriminate |].
    cbn [lower] in H. injection H as Hc Hr.
    destruct r; [| discriminate].
    exists pre, post, c. cbn [String.append] in Hl.
    repeat split; [congruence | assumption | assumption | now apply lower_ascii_y].
  - intros (pre & post & c & -> & Hpre & Hpost & Hc).
    rewrite (lstrip_app _ _ Hpre), (lstrip_letter c post Hc).
    cbn [rstrip]. unfold all_space at 1. rewrite (lstrip_letter c post Hc).
    rewrite (rstrip_all_space _ Hpost). cbn [lower].
    apply lower_ascii_y in Hc. now rewrite Hc.
Qed.

(** X14. The export goes ahead only on an answer that is [y] or [Y] with
    nothing but whitespace around it, whitespace being what [str.strip]
    removes (the no-break space and the other Unicode spaces included).
    Any other answer, ["yes"] included, prints the "not saved" notice and
    does nothing else: no second prompt, no directory created, no file
    written. *)
Theorem save_happens_only_on_yes t m answer :
  input_choice t = Ok answer ->
  (~ says_yes answer ->
   save_data_log t m
   = ([save_prompt; Printed "[yellow]Data was not saved.[/yellow]"], Ok tt))
  /\ ((exists path rows, In (Wrote path rows) (fst (save_data_log t m))) ->
      says_yes answer)
  /\ ((exists dir, In (MadeDirs dir) (fst (save_data_log t m))) -> says_yes answer).
Proof.
  intros Hin.
  assert (Hno : ~ says_yes answer ->
                save_data_log t m
                = ([save_prompt; Printed "[yellow]Data was not saved.[/yellow]"], Ok tt)).
  { intros Hn. unfold save_data_log. rewrite Hin.
    destruct (String.eqb_spec (lower (strip answer)) "y") as [E | E].
    - now apply choice_is_y_iff in E.
    - reflexivity. }
  split; [exact Hno |].
  assert (Hdec : says_yes answer \/ ~ says_yes answer).
  { destruct (String.eqb_spec (lower (strip answer)) "y") as [E | E].
    - left. now apply choice_is_y_iff.
    - right. intros H. now apply choice_is_y_iff in H. }
  split.
  - intros (path & rows & H). destruct Hdec as [Hy | Hn]; [exact Hy |].
    rewrite (Hno Hn) in H. cbn in H. destruct H as [H | [H | []]]; discriminate.
  - intros (dir & H). destruct Hdec as [Hy | Hn]; [exact Hy |].
    rewrite (Hno Hn) in H. cbn in H. destruct H as [H | [H | []]]; discriminate.
Qed.

Lemma save_happens_only_on_yes_witness :
  input_choice terminal_no = Ok "yes"%string
  /\ (~ says_yes "yes" ->
      save_data_log terminal_no export_monitor
      = ([save_prompt; Printed "[yellow]Data was not saved.[/yellow]"], Ok tt)).
Proof.
  split; [reflexivity |].
  exact (proj1 (save_happens_only_on_yes terminal_no export_monitor "yes" eq_refl)).
Defined.

Lemma os_path_join_relative a b :
  String.prefix "/" b = false ->
  os_path_join a b
  = (if (String.eqb a "" || ends_with_sep a)%bool then a ++ b else a ++ "/" ++ b)%string.
Proof. intros H. unfold os_path_join. now rewrite H. Qed.


Lemma says_yes_padded_capital : says_yes (" Y" ++ nbsp).
Proof.
  exists " "%string, nbsp, "Y"%char. repeat split; auto.
Qed.


(** * Beyond the claims: sensor labels *)
Lemma prefix_spec sub :
  forall s, String.prefix sub s = true <-> exists post, s = (sub ++ post)%string.
Proof.
  induction sub as [| a sub IH]; intros s.
  - destruct s; cbn; split; eauto.
  - destruct s as [| b s]; cbn [String.prefix].
    + split; [discriminate | intros (post & H); discriminate].
    + destruct (ascii_dec a b) as [-> | Hab].
      * rewrite IH. split; intros (post & H); exists post; cbn [String.append] in *;
          congruence.
      * split; [discriminate |]. intros (post & H). cbn [String.append] in H.
        congruence.
Qed.

Lemma contains_spec sub :
  forall s, contains sub s = true
            <-> exists pre post, s = (pre ++ sub ++ post)%string.
Proof.
  intros s. induction s as [| c s IH]; cbn [contains].
  - rewrite orb_false_r, prefix_spec. split.
    + intros (post & H). now exists ""%string, post.
    + intros (pre & post & H). destruct pre; [now exists post | discriminate].
  - rewrite orb_true_iff, prefix_spec, IH. split.
    + intros [(post & H) | (pre & post & H)].
      * now exists ""%string, post.
      * exists (String c pre), post. cbn [String.append]. congruence.
    + intros (pre & post & H). destruct pre as [| c' pre].
      * left. now exists post.
      * right. cbn [String.append] in H. injection H as _ H. now exists pre, post.
Qed.

Lemma lower_empty s : lower s = ""%string <-> s = ""%string.
Proof. destruct s; cbn; split; congruence. Qed.

(** X16. An entry counts as the CPU package or core-0 reading exactly when its
    label, lower-cased, has ["package"] or ["core 0"] somewhere inside it;
    the test depends on the label only up to letter case. *)
Theorem label_matches_iff_substring t :
  (label_matches t = true
   <-> exists pre post,
         lower (label t) = (pre ++ "package" ++ post)%string
         \/ lower (label t) = (pre ++ "core 0" ++ post)%string)
  /\ (forall t', lower (label t) = lower (label t') ->
        label_matches t = label_matches t').
Proof.
  split.
  - unfold label_matches. rewrite andb_true_iff, orb_true_iff, negb_true_iff,
      !contains_spec, String.eqb_neq. split.
    + intros [_ [(pre & post & H) | (pre & post & H)]]; exists pre, post; auto.
    + intros (pre & post & H). split.
      * intros E. rewrite E in H. cbn in H.
        destruct H as [H | H]; destruct pre; discriminate.
      * destruct H as [H | H]; [left | right]; now exists pre, post.
  - intros t' H. unfold label_matches. rewrite H. f_equal. f_equal.
    destruct (String.eqb_spec (label t) ""), (String.eqb_spec (label t') "");
      try reflexivity; exfalso.
    + rewrite e in H. cbn in H. symmetry in H.
      apply (proj1 (lower_empty _)) in H. contradiction.
    + rewrite e in H. cbn in H. apply (proj1 (lower_empty _)) in H. contradiction.
Qed.

Lemma label_matches_iff_substring_witness :
  lower (label (mkShwtemp "Package id 0" 55 None None))
  = lower (label (mkShwtemp "PACKAGE ID 0" 40 None None))
  /\ label_matches (mkShwtemp "Package id 0" 55 None None)
     = label_matches (mkShwtemp "PACKAGE ID 0" 40 None None).
Proof.
  split; [reflexivity |].
  exact (proj2 (label_matches_iff_substring (mkShwtemp "Package id 0" 55 None None))
           (mkShwtemp "PACKAGE ID 0" 40 None None) eq_refl).
Defined.

(** * Beyond the claims: construction and the temperature cadence *)
Lemma window_maxlen_ok window interval :
  (0 <= window)%Q -> (0 < interval)%Q ->
  window_maxlen window interval
  = Ok (Z.to_nat (Float.int_of_float (Float.fdiv window interval))).
Proof.
  intros Hw Hi. unfold window_maxlen.
  destruct (Qeq_bool interval 0) eqn:E.
  - apply Qeq_bool_iff in E. rewrite E in Hi. discriminate.
  - assert (H : 0 <= Float.int_of_float (Float.fdiv window interval)).
    { apply int_of_float_nonneg, to_float_nonneg.
      apply Qle_shift_div_l; [exact Hi |]. now rewrite Qmult_0_l. }
    apply Z.ltb_ge in H. now rewrite H.
Qed.

Lemma window_maxlen_zero window interval :
  (interval == 0)%Q -> exists e, window_maxlen window interval = Raise e.
Proof.
  intros H. unfold window_maxlen. apply Qeq_bool_iff in H. rewrite H. eauto.
Qed.

(** X17. Construction divides the window duration by each sampling
    interval: when either interval is zero it raises.  With positive
    intervals, a non-negative window and both quotients small enough for a
    [deque] length on any platform (below 2^31), it succeeds and gives a
    running monitor with its start time set, no end time, no sensor key,
    five empty windows, the CPU, frequency, load and timestamp windows
    sharing the capacity [int(window / interval)] and the temperature
    window having [int(window / temperature interval)]. *)
Theorem construction_outcomes cfg now :
  ((sample_interval_sec cfg == 0)%Q \/ (temp_sample_interval_sec cfg == 0)%Q ->
   exists e, CPUMonitor_init cfg now = Raise e)
  /\ ((0 <= window_duration_sec cfg)%Q ->
      (0 < sample_interval_sec cfg)%Q ->
      (0 < temp_sample_interval_sec cfg)%Q ->
      Float.int_of_float
        (Float.fdiv (window_duration_sec cfg) (sample_interval_sec cfg)) < 2 ^ 31 ->
      Float.int_of_float
        (Float.fdiv (window_duration_sec cfg) (temp_sample_interval_sec cfg)) < 2 ^ 31 ->
      exists m0,
        CPUMonitor_init cfg now = Ok m0
        /\ running m0 = true
        /\ start_time m0 = Some now /\ end_time m0 = None /\ _sensor_key m0 = None
        /\ items (cpu_samples m0) = [] /\ items (temp_samples m0) = []
        /\ items (freq_samples m0) = [] /\ items (load_samples m0) = []
        /\ items (timestamps m0) = []
        /\ maxlen (cpu_samples m0)
           = Z.to_nat (Float.int_of_float
                         (Float.fdiv (window_duration_sec cfg) (sample_interval_sec cfg)))
        /\ maxlen (temp_samples m0)
           = Z.to_nat (Float.int_of_float
                         (Float.fdiv (window_duration_sec cfg)
                            (temp_sample_interval_sec cfg)))
        /\ maxlen (freq_samples m0) = maxlen (cpu_samples m0)
        /\ maxlen (load_samples m0) = maxlen (cpu_samples m0)
        /\ maxlen (timestamps m0) = maxlen (cpu_samples m0)).
Proof.
  split.
  - intros [H | H]; unfold CPUMonitor_init.
    + destruct (window_maxlen_zero (window_duration_sec cfg) _ H) as (e & ->). eauto.
    + destruct (window_maxlen_zero (window_duration_sec cfg) _ H) as (e & ->).
      destruct (window_maxlen _ (sample_interval_sec cfg)); eauto.
  - intros Hw Hs Ht _ _.
    unfold CPUMonitor_init.
    rewrite (window_maxlen_ok _ _ Hw Hs), (window_maxlen_ok _ _ Hw Ht).
    eexists. split; [reflexivity |]. cbn. repeat split.
Qed.

Lemma construction_outcomes_witness :
  (0 <= window_duration_sec SETTINGS)%Q
  /\ (0 < sample_interval_sec SETTINGS)%Q
  /\ (0 < temp_sample_interval_sec SETTINGS)%Q
  /\ exists m0,
       CPUMonitor_init SETTINGS 0 = Ok m0 /\ running m0 = true
       /\ maxlen (cpu_samples m0) = 20%nat /\ maxlen (temp_samples m0) = 5%nat.
Proof.
  assert (Hw : (0 <= window_duration_sec SETTINGS)%Q) by (vm_compute; discriminate).
  assert (Hs : (0 < sample_interval_sec SETTINGS)%Q) by reflexivity.
  assert (Ht : (0 < temp_sample_interval_sec SETTINGS)%Q) by reflexivity.
  split; [exact Hw |]. split; [exact Hs |]. split; [exact Ht |].
  destruct (proj2 (construction_outcomes SETTINGS 0) Hw Hs Ht)
    as (m0 & Hm & Hr & _ & _ & _ & _ & _ & _ & _ & _ & Hc & Hct & _);
    [vm_compute; reflexivity | vm_compute; reflexivity |].
  exists m0. split; [exact Hm |]. split; [exact Hr |]. split; [exact Hc | exact Hct].
Defined.

(** X18. No retry storm.  After a tick that went into the temperature branch,
    whether or not a reading came back, a following tick whose clock is
    less than the temperature interval later makes no temperature read and
    leaves the temperature window and the last temperature time alone. *)
Theorem no_temperature_retry_within_interval cfg p1 p2 m tr :
  no_raise p1 -> no_raise p2 ->
  (temp_sample_interval_sec cfg
   <= Float.fsub (time_time p1) (_last_temp_time m))%Q ->
  ~ (temp_sample_interval_sec cfg
     <= Float.fsub (time_time p2) (time_time p1))%Q ->
  let w1 := exec (sample cfg p1) (m, tr) in
  let w2 := exec (sample cfg p2) w1 in
  _last_temp_time (fst w1) = time_time p1
  /\ temp_samples (fst w2) = temp_samples (fst w1)
  /\ _last_temp_time (fst w2) = time_time p1
  /\ snd w2 = snd w1 ++ [CallDatetimeNow; CallCpuPercent; CallCpuFreq;
                         CallGetloadavg; CallTimeTime].
Proof.
  intros ((c1 & Hc1) & (f1 & Hf1) & (l1 & Hl1))
         ((c2 & Hc2) & (f2 & Hf2) & (l2 & Hl2)) Hdue Hnot.
  cbv zeta.
  rewrite (sample_ok cfg p1 m tr c1 f1 l1 Hc1 Hf1 Hl1). cbv zeta.
  apply Qle_bool_iff in Hdue. change (temp_due cfg p1 m = true) in Hdue.
  rewrite Hdue.
  rewrite (sample_ok cfg p2 _ _ c2 f2 l2 Hc2 Hf2 Hl2). cbv zeta.
  assert (Hlast : _last_temp_time
                    (after_temp p1
                       (after_load l1 (after_freq f1 (after_cpu c1 (after_now p1 m)))))
                  = time_time p1).
  { unfold after_temp. now destruct (temperature_reading _ _). }
  assert (Hd2 : temp_due cfg p2
                  (after_temp p1
                     (after_load l1 (after_freq f1 (after_cpu c1 (after_now p1 m)))))
                = false).
  { unfold temp_due. rewrite Hlast.
    destruct (Qle_bool _ _) eqn:E; [| reflexivity].
    apply Qle_bool_iff in E. contradiction. }
  rewrite Hd2. cbn [fst snd]. repeat split; auto.
Qed.

Lemma no_temperature_retry_within_interval_witness :
  no_raise (tick_ok 10 100) /\ no_raise (tick_ok 20 101)
  /\ temp_samples
       (fst (exec (sample SETTINGS (tick_ok 20 101))
               (exec (sample SETTINGS (tick_ok 10 100)) (fresh_monitor, []))))
     = temp_samples (fst (exec (sample SETTINGS (tick_ok 10 100)) (fresh_monitor, []))).
Proof.
  assert (H1 : no_raise (tick_ok 10 100)) by (repeat split; cbn; eauto).
  assert (H2 : no_raise (tick_ok 20 101)) by (repeat split; cbn; eauto).
  split; [exact H1 |]. split; [exact H2 |].
  assert (Hd : (temp_sample_interval_sec SETTINGS
                <= Float.fsub (time_time (tick_ok 10 100))
                     (_last_temp_time fresh_monitor))%Q).
  { apply Qle_bool_iff. vm_compute. reflexivity. }
  assert (Hn : ~ (temp_sample_interval_sec SETTINGS
                  <= Float.fsub (time_time (tick_ok 20 101))
                       (time_time (tick_ok 10 100)))%Q).
  { intros H. apply Qle_bool_iff in H. vm_compute in H. discriminate. }
  destruct (no_temperature_retry_within_interval SETTINGS (tick_ok 10 100)
              (tick_ok 20 101) fresh_monitor [] H1 H2 Hd Hn) as (_ & H & _).
  exact H.
Defined.

(** * Beyond the claims: the average stays inside the window's range *)
Lemma round_half_even_le_int y k :
  (y <= inject_Z k)%Q -> Float.round_half_even y <= k.
Proof.
  intros H. unfold Float.round_half_even.
  pose proof (Qfloor_resp_le _ _ H) as Hf. rewrite Qfloor_Z in Hf.
  destruct (Z.eq_dec (Qfloor y) k) as [E | E].
  - assert (Hy : (y == inject_Z k)%Q).
    { apply Qle_antisym; [exact H |]. rewrite <- E. apply Qfloor_le. }
    assert (Hc : (y - inject_Z (Qfloor y) ?= 1 # 2)%Q = Lt).
    { apply Qlt_alt. rewrite E, Hy.
      setoid_replace (inject_Z k - inject_Z k)%Q with 0%Q by ring. reflexivity. }
    rewrite Hc. lia.
  - destruct (_ ?= _)%Q; [destruct (Z.even _) | |]; lia.
Qed.

Lemma round_half_even_ge_int y k :
  (inject_Z k <= y)%Q -> k <= Float.round_half_even y.
Proof.
  intros H. unfold Float.round_half_even.
  pose proof (Qfloor_resp_le _ _ H) as Hf. rewrite Qfloor_Z in Hf.
  destruct (_ ?= _)%Q; [destruct (Z.even _) | |]; lia.
Qed.

Lemma to_float_unfold x :
  ~ (x == 0)%Q ->
  (Float.to_float x
   == inject_Z (Float.round_half_even
                  (Qred x * Float.pow2 (- Float.fexp (Float.mag (Qred x)))))
      * Float.pow2 (Float.fexp (Float.mag (Qred x))))%Q.
Proof.
  intros H. unfold Float.to_float.
  destruct (Qeq_bool (Qred x) 0) eqn:E.
  - apply Qeq_bool_iff in E. rewrite Qred_correct in E. contradiction.
  - apply Qred_correct.
Qed.

Lemma pow2_cancel a : (Float.pow2 a * Float.pow2 (- a) == 1)%Q.
Proof.
  rewrite <- FloatFacts.pow2_add. now replace (a + - a) with 0 by lia.
Qed.

Lemma mag_lower_pos x :
  (0 < x)%Q -> (Float.pow2 (Float.mag (Qred x) - 1) <= x)%Q.
Proof.
  intros Hx.
  assert (Hne : ~ (Qred x == 0)%Q).
  { intros E. rewrite Qred_correct in E. rewrite E in Hx. discriminate. }
  assert (Ha : (Qabs (Qred x) == x)%Q).
  { rewrite Qabs_pos; [apply Qred_correct |].
    rewrite Qred_correct. now apply Qlt_le_weak. }
  eapply Qle_trans; [exact (FloatFacts.mag_lower _ Hne) |].
  rewrite Ha. apply Qle_refl.
Qed.

(** A positive float at or above [x] sits on the rounding grid of [x], or
    [x] would be larger than it. *)
Lemma float_on_grid_above x m e :
  (0 < x)%Q -> Float.emin <= e -> 0 < m < 2 ^ Float.prec ->
  (x <= inject_Z m * Float.pow2 e)%Q ->
  Float.fexp (Float.mag (Qred x)) <= e.
Proof.
  intros Hx He Hm Hle.
  destruct (Z.le_gt_cases (Float.fexp (Float.mag (Qred x))) e) as [H | H];
    [exact H | exfalso].
  pose proof (mag_lower_pos x Hx) as Hl.
  assert (Hlt : (inject_Z m * Float.pow2 e < Float.pow2 (Float.prec + e))%Q).
  { rewrite FloatFacts.pow2_add. apply Qmult_lt_compat_r; [apply FloatFacts.pow2_pos |].
    rewrite (FloatFacts.pow2_inject Float.prec) by (unfold Float.prec; lia).
    rewrite <- Zlt_Qlt. lia. }
  assert (Hpow : (Float.pow2 (Float.prec + e)
                  <= Float.pow2 (Float.mag (Qred x) - 1))%Q).
  { apply Qpower_le_compat_l; [| discriminate].
    unfold Float.fexp in H. lia. }
  apply (Qlt_irrefl x).
  eapply Qle_lt_trans; [exact Hle |].
  eapply Qlt_le_trans; [exact Hlt |].
  eapply Qle_trans; [exact Hpow | exact Hl].
Qed.

Lemma to_float_le_float x f :
  (0 < x)%Q -> Float.is_float f -> (x <= f)%Q -> (Float.to_float x <= f)%Q.
Proof.
  intros Hx (m & e & He & Hm & Hf) Hle.
  assert (Hne : ~ (x == 0)%Q) by (intros E; rewrite E in Hx; discriminate).
  assert (Hm0 : 0 < m).
  { destruct (Z.lt_trichotomy m 0) as [H | [H | H]]; [| | exact H]; exfalso.
    - apply (Qlt_irrefl 0). eapply Qlt_le_trans; [exact Hx |].
      eapply Qle_trans; [exact Hle |]. rewrite Hf.
      setoid_replace 0%Q with (0 * Float.pow2 e)%Q by ring.
      apply Qmult_le_compat_r; [| apply Qlt_le_weak, FloatFacts.pow2_pos].
      change 0%Q with (inject_Z 0). rewrite <- Zle_Qle. lia.
    - subst m. apply (Qlt_irrefl 0). eapply Qlt_le_trans; [exact Hx |].
      eapply Qle_trans; [exact Hle |]. rewrite Hf.
      change (inject_Z 0) with 0%Q. rewrite Qmult_0_l. apply Qle_refl. }
  set (fe := Float.fexp (Float.mag (Qred x))).
  assert (Hfe : fe <= e).
  { apply (float_on_grid_above x m e); auto; [lia | now rewrite <- Hf]. }
  rewrite (to_float_unfold x Hne). fold fe.
  assert (Hk : (f == inject_Z (m * 2 ^ (e - fe)) * Float.pow2 fe)%Q).
  { rewrite Hf, inject_Z_mult, <- (FloatFacts.pow2_inject (e - fe)) by lia.
    rewrite <- Qmult_assoc, <- FloatFacts.pow2_add.
    now replace (e - fe + fe) with e by lia. }
  rewrite Hk. apply Qmult_le_compat_r; [| apply Qlt_le_weak, FloatFacts.pow2_pos].
  rewrite <- Zle_Qle. apply round_half_even_le_int.
  rewrite Qred_correct.
  apply Qle_trans with (f * Float.pow2 (- fe))%Q.
  - apply Qmult_le_compat_r; [exact Hle | apply Qlt_le_weak, FloatFacts.pow2_pos].
  - rewrite Hk, <- Qmult_assoc, pow2_cancel, Qmult_1_r. apply Qle_refl.
Qed.

Lemma to_float_ge_float x f :
  (0 < f)%Q -> Float.is_float f -> (f <= x)%Q -> (f <= Float.to_float x)%Q.
Proof.
  intros Hf0 (m & e & He & Hm & Hf) Hle.
  assert (Hx : (0 < x)%Q) by (eapply Qlt_le_trans; eassumption).
  assert (Hne : ~ (x == 0)%Q) by (intros E; rewrite E in Hx; discriminate).
  set (fe := Float.fexp (Float.mag (Qred x))).
  rewrite (to_float_unfold x Hne). fold fe.
  destruct (Z.le_gt_cases fe e) as [Hfe | Hfe].
  - assert (Hk : (f == inject_Z (m * 2 ^ (e - fe)) * Float.pow2 fe)%Q).
    { rewrite Hf, inject_Z_mult, <- (FloatFacts.pow2_inject (e - fe)) by lia.
      rewrite <- Qmult_assoc, <- FloatFacts.pow2_add.
      now replace (e - fe + fe) with e by lia. }
    rewrite Hk. apply Qmult_le_compat_r; [| apply Qlt_le_weak, FloatFacts.pow2_pos].
    rewrite <- Zle_Qle. apply round_half_even_ge_int.
    rewrite Qred_correct.
    apply Qle_trans with (f * Float.pow2 (- fe))%Q.
    + rewrite Hk, <- Qmult_assoc, pow2_cancel, Qmult_1_r. apply Qle_refl.
    + apply Qmult_le_compat_r; [exact Hle | apply Qlt_le_weak, FloatFacts.pow2_pos].
  - assert (Hmag : fe = Float.mag (Qred x) - Float.prec).
    { unfold fe, Float.fexp in *. lia. }
    pose proof (mag_lower_pos x Hx) as Hl.
    assert (Hsplit : (Float.pow2 (Float.mag (Qred x) - 1)
                      == inject_Z (2 ^ (Float.prec - 1)) * Float.pow2 fe)%Q).
    { rewrite <- (FloatFacts.pow2_inject (Float.prec - 1)) by (unfold Float.prec; lia).
      rewrite <- FloatFacts.pow2_add. f_equiv. lia. }
    apply Qle_trans with (Float.pow2 (Float.mag (Qred x) - 1)).
    + rewrite Hf. apply Qlt_le_weak.
      apply Qlt_le_trans with (Float.pow2 (Float.prec + e)).
      * rewrite FloatFacts.pow2_add.
        apply Qmult_lt_compat_r; [apply FloatFacts.pow2_pos |].
        rewrite (FloatFacts.pow2_inject Float.prec) by (unfold Float.prec; lia).
        rewrite <- Zlt_Qlt. lia.
      * apply Qpower_le_compat_l; [lia | discriminate].
    + rewrite Hsplit.
      apply Qmult_le_compat_r; [| apply Qlt_le_weak, FloatFacts.pow2_pos].
      rewrite <- Zle_Qle. apply round_half_even_ge_int.
      rewrite Qred_correct.
      apply Qle_trans with (Float.pow2 (Float.mag (Qred x) - 1) * Float.pow2 (- fe))%Q.
      * rewrite Hsplit, <- Qmult_assoc, pow2_cancel, Qmult_1_r. apply Qle_refl.
      * apply Qmult_le_compat_r; [exact Hl | apply Qlt_le_weak, FloatFacts.pow2_pos].
Qed.

Lemma fold_left_Qplus_bounds l lo hi :
  (forall y, In y l -> (lo <= y)%Q /\ (y <= hi)%Q) ->
  forall a,
    (a + inject_Z (Z.of_nat (length l)) * lo <= fold_left Qplus l a)%Q
    /\ (fold_left Qplus l a <= a + inject_Z (Z.of_nat (length l)) * hi)%Q.
Proof.
  induction l as [| x l IH]; intros H a.
  - cbn. split; ring_simplify; apply Qle_refl.
  - destruct (H x (or_introl eq_refl)) as [Hlo Hhi].
    destruct (IH (fun y Hy => H y (or_intror Hy)) (a + x)%Q) as [IHlo IHhi].
    cbn [fold_left length]. rewrite Nat2Z.inj_succ, <- Z.add_1_r, inject_Z_plus.
    split.
    + eapply Qle_trans; [| exact IHlo].
      setoid_replace (a + (inject_Z (Z.of_nat (length l)) + inject_Z 1) * lo)%Q
        with (a + lo + inject_Z (Z.of_nat (length l)) * lo)%Q by ring.
      apply Qplus_le_compat; [| apply Qle_refl].
      apply Qplus_le_compat; [apply Qle_refl | exact Hlo].
    + eapply Qle_trans; [exact IHhi |].
      setoid_replace (a + (inject_Z (Z.of_nat (length l)) + inject_Z 1) * hi)%Q
        with (a + hi + inject_Z (Z.of_nat (length l)) * hi)%Q by ring.
      apply Qplus_le_compat; [| apply Qle_refl].
      apply Qplus_le_compat; [apply Qle_refl | exact Hhi].
Qed.

Lemma exact_mean_bounds l lo hi :
  l <> [] ->
  (forall y, In y l -> (lo <= y)%Q /\ (y <= hi)%Q) ->
  (lo <= exact_sum l / inject_Z (Z.of_nat (length l)))%Q
  /\ (exact_sum l / inject_Z (Z.of_nat (length l)) <= hi)%Q.
Proof.
  intros Hne H.
  assert (Hn : (0 < inject_Z (Z.of_nat (length l)))%Q).
  { change 0%Q with (inject_Z 0). rewrite <- Zlt_Qlt.
    destruct l; [congruence | cbn [length]; lia]. }
  destruct (fold_left_Qplus_bounds l lo hi H 0%Q) as [Hlo Hhi].
  fold (exact_sum l) in Hlo, Hhi. split.
  - apply Qle_shift_div_l; [exact Hn |].
    eapply Qle_trans; [| exact Hlo]. ring_simplify. apply Qle_refl.
  - apply Qle_shift_div_r; [exact Hn |].
    eapply Qle_trans; [exact Hhi |]. ring_simplify. apply Qle_refl.
Qed.

(** X19. On a non-empty window of non-negative floats, as CPU percentages are,
    the average that is displayed lies between the minimum and the maximum
    of the window: converting the exact mean to a float never carries it
    past a sample.  So an all-green window has a green average and an
    all-red window a red one. *)
Theorem avg_between_min_and_max (d : deque Q) warn crit :
  items d <> [] ->
  (forall x, In x (items d) -> Float.is_float x /\ (0 <= x)%Q) ->
  exists a lo hi,
    avg d = Ok a /\ py_min (items d) = Ok lo /\ py_max (items d) = Ok hi
    /\ (lo <= a)%Q /\ (a <= hi)%Q
    /\ (colorize_color hi warn crit = green -> colorize_color a warn crit = green)
    /\ (colorize_color lo warn crit = red -> colorize_color a warn crit = red).
Proof.
  intros Hne Hfl.
  destruct (py_min_spec _ Hne) as (lo & Hlo & Hlin & Hlle).
  destruct (py_max_spec _ Hne) as (hi & Hhi & Hhin & Hhle).
  destruct (exact_mean_bounds (items d) lo hi Hne) as [Hml Hmh].
  { intros y Hy. split; [now apply Hlle | now apply Hhle]. }
  set (x := (exact_sum (items d) / inject_Z (Z.of_nat (length (items d))))%Q) in *.
  assert (Ha : avg d = Ok (Float.to_float x)).
  { unfold avg, mean, x. destruct (items d); [congruence | reflexivity]. }
  destruct (Hfl lo Hlin) as [Hlf Hl0]. destruct (Hfl hi Hhin) as [Hhf Hh0].
  assert (Hbounds : (lo <= Float.to_float x)%Q /\ (Float.to_float x <= hi)%Q).
  { destruct (Qlt_le_dec 0 x) as [Hx | Hx].
    - split; [| now apply to_float_le_float].
      destruct (Qlt_le_dec 0 lo) as [Hlp | Hlp]; [now apply to_float_ge_float |].
      eapply Qle_trans; [exact Hlp |]. apply to_float_nonneg. now apply Qlt_le_weak.
    - assert (Hx0 : (x == 0)%Q).
      { apply Qle_antisym; [exact Hx |]. apply Qle_trans with lo; assumption. }
      rewrite (to_float_comp _ _ Hx0).
      change (Float.to_float 0) with 0%Q. split; [| exact Hh0].
      now rewrite <- Hx0. }
  destruct Hbounds as [Hb1 Hb2].
  exists (Float.to_float x), lo, hi. repeat split; auto.
  - apply (colorize_color_mono _ _ warn crit Hb2).
  - apply (colorize_color_mono _ _ warn crit Hb1).
Qed.

Lemma avg_between_min_and_max_witness :
  items (cpu_samples export_monitor) <> []
  /\ (forall x, In x (items (cpu_samples export_monitor)) ->
        Float.is_float x /\ (0 <= x)%Q)
  /\ exists a lo hi,
       avg (cpu_samples export_monitor) = Ok a
       /\ py_min (items (cpu_samples export_monitor)) = Ok lo
       /\ py_max (items (cpu_samples export_monitor)) = Ok hi
       /\ (lo <= a)%Q /\ (a <= hi)%Q.
Proof.
  assert (Hne : items (cpu_samples export_monitor) <> []) by (cbn; discriminate).
  assert (Hfl : forall x, In x (items (cpu_samples export_monitor)) ->
                          Float.is_float x /\ (0 <= x)%Q).
  { intros x Hx. cbn in Hx.
    destruct Hx as [<- | [<- | [<- | [<- | [<- | []]]]]];
      (split; [| vm_compute; discriminate]).
    - exists 50, 0. repeat split; try reflexivity. unfold Float.emin. lia.
    - exists 75, 0. repeat split; try reflexivity. unfold Float.emin. lia.
    - exists 95, 0. repeat split; try reflexivity. unfold Float.emin. lia.
    - exists 60, 0. repeat split; try reflexivity. unfold Float.emin. lia.
    - exists 41, (-1). repeat split; try reflexivity. unfold Float.emin. lia. }
  split; [exact Hne |]. split; [exact Hfl |].
  destruct (avg_between_min_and_max (cpu_samples export_monitor) 70 90 Hne Hfl)
    as (a & lo & hi & Ha & Hlo & Hhi & H1 & H2 & _).
  exists a, lo, hi. repeat split; assumption.
Defined.

(** * Beyond the claims: the export of a clean run *)
Lemma history_nth_error {A : Type} (val : Platform -> option A) ps :
  Forall (fun p => exists x, val p = Some x) ps ->
  forall i p, nth_error ps i = Some p -> nth_error (history val ps) i = val p.
Proof.
  induction 1 as [| q ps (x & Hx) _ IH]; intros i p Hi.
  - destruct i; discriminate.
  - unfold history in *. cbn [flat_map]. rewrite Hx. cbn [app].
    destruct i as [| i]; cbn [nth_error] in *.
    + injection Hi as <-. now rewrite Hx.
    + now apply IH.
Qed.

Lemma lastn_history_nth_error {A : Type} (val : Platform -> option A) n ps :
  Forall (fun p => exists x, val p = Some x) ps ->
  forall i p,
    nth_error (lastn n ps) i = Some p ->
    nth_error (lastn n (history val ps)) i = val p.
Proof.
  intros H i p Hi. unfold lastn in *.
  rewrite nth_error_skipn in *. rewrite (length_history_all val ps H).
  now apply history_nth_error.
Qed.

(** X20. After a run from construction in which no base-cadence read raised,
    the export lines the windows up tick by tick: row [i] carries, for the
    [i]-th of the last [C] ticks, the index [i + 1], the timestamp captured
    in that tick, the CPU percentage and the frequency (0.0 when absent) read
    in that tick, printed with one decimal, and the three load averages read
    in that tick. *)
Theorem export_rows_align_with_ticks cfg now m0 ps :
  CPUMonitor_init cfg now = Ok m0 ->
  Forall no_raise ps ->
  let m := fst (ticks cfg ps (m0, [])) in
  let C := maxlen (cpu_samples m0) in
  exists rows,
    save_data_log_rows m = Ok (csv_header :: rows)
    /\ length rows = Nat.min (length ps) C
    /\ forall i p,
         nth_error (lastn C ps) i = Some p ->
         exists c f l temp,
           cpu_percent p = Ok c /\ cpu_freq p = Ok f /\ getloadavg p = Ok l
           /\ nth_error rows i
              = Some [CellInt (Z.of_nat i + 1); CellStr (now_strftime p);
                      CellStr (format_1f c); CellStr temp;
                      CellStr (format_1f (freq_or_sentinel f));
                      CellFloat (fst (fst l)); CellFloat (snd (fst l));
                      CellFloat (snd l)].
Proof.
  intros Hinit Hok. cbv zeta.
  destruct (CPUMonitor_init_spec _ _ _ Hinit) as (c0 & ct & _ & _ & ->).
  cbn [cpu_samples deque_new maxlen].
  set (w0 := (mkCPUMonitor (deque_new c0) (deque_new ct) (deque_new c0)
                (deque_new c0) 0 true None (Some now) None (deque_new c0),
              @nil Event)).
  pose proof (ticks_window cfg timestamps (fun p => Some (now_strftime p))
                no_raise (fun p w _ => sample_timestamps cfg p w) ps w0 Hok) as Ht.
  pose proof (ticks_window cfg cpu_samples cpu_value no_raise
                (fun p w _ => sample_cpu_samples cfg p w) ps w0 Hok) as Hc.
  pose proof (ticks_window cfg freq_samples freq_value no_raise
                (sample_freq_samples cfg) ps w0 Hok) as Hf.
  pose proof (ticks_window cfg load_samples load_value no_raise
                (sample_load_samples cfg) ps w0 Hok) as Hl.
  cbn [w0 fst timestamps cpu_samples freq_samples load_samples deque_new maxlen
         items app deque_len length] in Ht, Hc, Hf, Hl.
  destruct Ht as [_ Ht]; [lia |]. destruct Hc as [_ Hc]; [lia |].
  destruct Hf as [_ Hf]; [lia |]. destruct Hl as [_ Hl]; [lia |].
  fold w0. set (m := fst (ticks cfg ps w0)) in *.
  assert (Gt : Forall (fun p => exists x, Some (now_strftime p) = Some x) ps).
  { apply Forall_forall. eauto. }
  assert (Gc : Forall (fun p => exists x, cpu_value p = Some x) ps).
  { eapply Forall_impl; [| exact Hok].
    intros p ((x & H) & _). unfold cpu_value. rewrite H. eauto. }
  assert (Gf : Forall (fun p => exists x, freq_value p = Some x) ps).
  { eapply Forall_impl; [| exact Hok].
    intros p (_ & (x & H) & _). unfold freq_value. rewrite H. eauto. }
  assert (Gl : Forall (fun p => exists x, load_value p = Some x) ps).
  { eapply Forall_impl; [| exact Hok].
    intros p (_ & _ & (x & H)). unfold load_value. rewrite H. eauto. }
  destruct (save_data_log_rows_spec m) as (rows & Hs & Hlen & Hr).
  exists rows. split; [exact Hs |]. split.
  { rewrite Hlen. unfold deque_len.
    now rewrite Hc, length_lastn, (length_history_all _ _ Gc). }
  intros i p Hi.
  assert (Hp : no_raise p).
  { eapply Forall_forall; [exact Hok |].
    apply nth_error_In in Hi. unfold lastn in Hi.
    rewrite <- (firstn_skipn (length ps - c0) ps). apply in_or_app. now right. }
  destruct Hp as ((c & Hpc) & (f & Hpf) & (l & Hpl)).
  pose proof (lastn_history_nth_error _ c0 ps Gt i p Hi) as Nt.
  pose proof (lastn_history_nth_error _ c0 ps Gc i p Hi) as Nc.
  pose proof (lastn_history_nth_error _ c0 ps Gf i p Hi) as Nf.
  pose proof (lastn_history_nth_error _ c0 ps Gl i p Hi) as Nl.
  rewrite <- Ht in Nt. rewrite <- Hc in Nc. rewrite <- Hf in Nf. rewrite <- Hl in Nl.
  unfold cpu_value in Nc. unfold freq_value in Nf. unfold load_value in Nl.
  rewrite Hpc in Nc. rewrite Hpf in Nf. rewrite Hpl in Nl.
  assert (Hlt : (i < length rows)%nat).
  { rewrite Hlen. unfold deque_len. apply nth_error_Some. congruence. }
  destruct (nth_error rows i) as [row |] eqn:Hrow;
    [| apply nth_error_None in Hrow; lia].
  pose proof (Hr i row Hrow) as Hcsv.
  destruct (csv_row_ok m i) as (row' & Hrow' & Hsh).
  assert (row' = row) by congruence. subst row'.
  destruct Hsh as (ts & cpu & temp & freq & l1 & l5 & l15 & -> & _ & Hts & Hcpu
                   & _ & _ & _ & Hfreq & _ & Hload).
  destruct l as [[a b] d].
  destruct (Hload a b d Nl) as (-> & -> & ->).
  rewrite (Hts _ Nt), (Hcpu _ Nc), (Hfreq _ Nf).
  exists c, f, (a, b, d), temp. repeat split; auto.
Qed.

Lemma export_rows_align_with_ticks_witness :
  CPUMonitor_init small_settings 0 = Ok small_monitor
  /\ Forall no_raise [tick_ok 10 1; tick_no_freq 20 2]
  /\ nth_error (lastn 3 [tick_ok 10 1; tick_no_freq 20 2]) 1 = Some (tick_no_freq 20 2)
  /\ exists rows temp,
       save_data_log_rows
         (fst (ticks small_settings [tick_ok 10 1; tick_no_freq 20 2]
                 (small_monitor, [])))
       = Ok (csv_header :: rows)
       /\ nth_error rows 1
          = Some [CellInt 2; CellStr "2024-05-01 12:00:02"; CellStr "20.0";
                  CellStr temp; CellStr "0.0";
                  CellFloat (1 # 2); CellFloat (3 # 4); CellFloat 1].
Proof.
  assert (Hinit : CPUMonitor_init small_settings 0 = Ok small_monitor)
    by (vm_compute; reflexivity).
  assert (Hok : Forall no_raise [tick_ok 10 1; tick_no_freq 20 2]).
  { repeat constructor; cbn; eauto. }
  assert (Hn : nth_error (lastn 3 [tick_ok 10 1; tick_no_freq 20 2]) 1
               = Some (tick_no_freq 20 2)) by reflexivity.
  split; [exact Hinit |]. split; [exact Hok |]. split; [exact Hn |].
  destruct (export_rows_align_with_ticks small_settings 0 small_monitor
              [tick_ok 10 1; tick_no_freq 20 2] Hinit Hok)
    as (rows & Hs & _ & Hrow).
  destruct (Hrow 1%nat _ Hn) as (c & f & l & temp & Hc & Hf & Hl & Hr).
  injection Hc as <-. injection Hf as <-. injection Hl as <-.
  exists rows, temp. split; [exact Hs | exact Hr].
Defined.
